(** * govuk-scraper: a shallow embedding of [scraper.py]

    The crawler walks legislation type -> year -> listing page -> document
    and mirrors every document page to disk.  Everything it does to the
    outside world (sleeping, HTTP requests, directory creation, file
    writes) is recorded here in an explicit world state, and Python
    exceptions are the [Raise] arm of a result type, so that statements
    about "which requests were issued" and "which files were touched"
    become statements about that state. *)

From Stdlib Require Import String Ascii List ZArith Bool Sorted.
From stdpp Require Import gmap strings list.

Local Open Scope Z_scope.

(** ** Python strings

    A Python [str] is modelled by a Rocq [string] holding its UTF-8
    encoding.  UTF-8 is self-synchronising, so the substring test and the
    split on an ASCII separator coincide with their code-point versions. *)

Module PyStr.

(** [needle in hay] *)
Fixpoint contains (needle hay : string) : bool :=
  String.prefix needle hay ||
  match hay with
  | EmptyString => false
  | String _ hay' => contains needle hay'
  end.

(** [s.split(sep)] for a one-character separator: never the empty list. *)
Fixpoint split (sep : ascii) (s : string) : list string :=
  match s with
  | EmptyString => [EmptyString]
  | String c s' =>
      if Ascii.eqb c sep then EmptyString :: split sep s'
      else match split sep s' with
           | [] => [String c EmptyString]
           | w :: ws => String c w :: ws
           end
  end.

(** [sep.join(parts)] *)
Fixpoint join (sep : string) (parts : list string) : string :=
  match parts with
  | [] => EmptyString
  | [p] => p
  | p :: ps => p +:+ sep +:+ join sep ps
  end.

(** The line feed, Python's ["\n"] *)
Definition newline : string := String "010" EmptyString.

(** [l[-1]] on a list that [split] produced (empty string on the
    impossible empty list). *)
Definition last_seg (l : list string) : string := List.last l EmptyString.

(** [l[lo:hi]], with Python's clamping of out-of-range bounds. *)
Definition slice {A} (lo hi : nat) (l : list A) : list A :=
  firstn (hi - lo) (skipn lo l).

Fixpoint last_char (s : string) : option ascii :=
  match s with
  | EmptyString => None
  | String c EmptyString => Some c
  | String _ s' => last_char s'
  end.

(** [s.endswith(c)] for a one-character [c] *)
Definition ends_with (c : ascii) (s : string) : bool :=
  match last_char s with
  | Some c' => Ascii.eqb c' c
  | None => false
  end.

End PyStr.

(** ** Module-level constants *)

Definition BASE_URL : string := "http://www.legislation.gov.uk".
Definition UNAVAILABLE_TEXT : string :=
  "This item of legislation isn’t available on this site as it isn’t currently available in a web-publishable format. This could be because the new legislation item hasn’t published yet.".
Definition COULDNT_FIND_TEXT : string := "The page you requested could not be found.".
Definition INVALID_TEXT : string := "Your request is not recognised.".
Definition DATA_DIR : string := "legislation_data".

Definition LEGISLATION_TYPES : list (string * list string) :=
  [ ("Primary Legislation",
      ["ukpga"; "ukla"; "ukppa"; "gbla"; "apgb"; "gbppa"; "aep"; "aosp";
       "asp"; "aip"; "apni"; "mnia"; "nia"; "ukcm"; "mwa"; "anaw"; "asc"]);
    ("Secondary Legislation",
      ["uksi"; "ssi"; "wsi"; "nisr"; "ukci"; "nisi"; "ukmo"; "nisro"]);
    ("Draft Legislation",
      ["ukdsi"; "sdsi"; "nidsr"; "nidsi"; "wdsi"]) ].

(** ** The parsed document (BeautifulSoup)

    [BeautifulSoup(html, 'html.parser')] is an external collaborator: it is
    a parameter [parse] of the crawler below.  What it returns is a tree of
    tags carrying an attribute dictionary; the queries the crawler runs on
    that tree ([find], [find_all], [tag[attr]]) are modelled on the tree. *)

Module Soup.

#[local] Set Warnings "-register-all".

Inductive node : Type :=
| Text (s : string)
| Tag (name : string) (attrs : list (string * string)) (children : list node).

(** [tag.get(key)] on the attribute dictionary *)
Fixpoint attr (key : string) (attrs : list (string * string)) : option string :=
  match attrs with
  | [] => None
  | (k, v) :: rest => if String.eqb k key then Some v else attr key rest
  end.

Definition attrs_of (n : node) : list (string * string) :=
  match n with Text _ => [] | Tag _ a _ => a end.

Definition name_of (n : node) : option string :=
  match n with Text _ => None | Tag nm _ _ => Some nm end.

(** All nodes strictly below [n], in document order: what [find] and
    [find_all] search. *)
Fixpoint descendants (n : node) : list node :=
  match n with
  | Text _ => []
  | Tag _ _ cs =>
      (fix go (l : list node) : list node :=
         match l with
         | [] => []
         | c :: l' => c :: descendants c ++ go l'
         end) cs
  end.

(** The attribute filters the crawler uses. *)
Inductive attr_filter : Type :=
| IdIs (v : string)        (* id='v' *)
| ClassIs (v : string)     (* class_='v': one of the space-separated classes *)
| HrefPresent              (* href=True *)
| NoFilter.

Definition has_name (nm : string) (n : node) : bool :=
  match name_of n with Some nm' => String.eqb nm' nm | None => false end.

Definition satisfies (f : attr_filter) (n : node) : bool :=
  match f with
  | IdIs v =>
      match attr "id" (attrs_of n) with Some v' => String.eqb v' v | None => false end
  | ClassIs v =>
      match attr "class" (attrs_of n) with
      | Some cls => existsb (String.eqb v) (String.words cls)
      | None => false
      end
  | HrefPresent =>
      match attr "href" (attrs_of n) with Some _ => true | None => false end
  | NoFilter => true
  end.

Definition find_all (n : node) (nm : string) (f : attr_filter) : list node :=
  List.filter (fun d => has_name nm d && satisfies f d) (descendants n).

(** [find] is the first result of [find_all], or [None]. *)
Definition find (n : node) (nm : string) (f : attr_filter) : option node :=
  head (find_all n nm f).

(** [[a['href'] for a in tags]] for tags selected with [href=True] *)
Definition hrefs_of (tags : list node) : list string :=
  omap (fun a => attr "href" (attrs_of a)) tags.

End Soup.

(** ** The world: remote site, file system, and a log of what was done *)

Record response : Type := { status_code : Z; text : string }.

(** The outcome of [requests.get]: a response, or a
    [requests.exceptions.RequestException]. *)
Inductive http_result : Type :=
| TransportError
| Response (r : response).

Inductive event : Type :=
| ESleep (secs : Z)                            (* time.sleep(secs) *)
| EGet (url : string) (timeout : option Z)     (* requests.get(url[, timeout=t]) *)
| EMakedirs (path : string)                    (* os.makedirs(path, exist_ok=True) *)
| EWrite (path : string) (content : string).   (* open(path, "w").write(content) *)

Record world : Type := {
  files : gmap string string;   (* regular files and their contents *)
  dirs : gset string;           (* directories *)
  trace : list event            (* everything done so far, oldest first *)
}.

(** The three messages [fetchHTML] puts in its [ValueError], named after
    the failure kinds of the specification. *)
Inductive fetch_failure : Type :=
| SoftFailure      (* "Error fetching {url}: unavailable" *)
| InvalidRequest   (* "Error fetching {url}: invalid text" *)
| NetworkError.    (* "Error fetching {url}: something else" *)

Inductive exn : Type :=
| ValueError (url : string) (why : fetch_failure)
| RequestException (url : string)
| AttributeError.    (* 'NoneType' object has no attribute 'find_all' *)

Inductive result (A : Type) : Type :=
| Ok (a : A)
| Raise (e : exn).
Arguments Ok {A} a.
Arguments Raise {A} e.

(** A computation runs in a world and leaves a world behind, also when it
    raises: what was done before the exception stays done. *)
Definition M (A : Type) : Type := world -> result A * world.

Definition ret {A} (a : A) : M A := fun w => (Ok a, w).
Definition raise {A} (e : exn) : M A := fun w => (Raise e, w).
Definition bind {A B} (m : M A) (k : A -> M B) : M B :=
  fun w => match m w with
           | (Ok a, w') => k a w'
           | (Raise e, w') => (Raise e, w')
           end.

Declare Scope py_scope.
Delimit Scope py_scope with py.
Notation "x <- m ;; k" := (bind m (fun x => k))
  (at level 100, m at next level, right associativity) : py_scope.
Notation "m ;;; k" := (bind m (fun _ => k))
  (at level 100, right associativity) : py_scope.

(** [try: body except <handled>: handler] *)
Definition try_except {A} (body : M A) (handled : exn -> bool) (handler : M A) : M A :=
  fun w => match body w with
           | (Ok a, w') => (Ok a, w')
           | (Raise e, w') => if handled e then handler w' else (Raise e, w')
           end.

(** [for x in l: acc = body(acc, x)], the loop-carried variables being [acc] *)
Fixpoint for_each {A B} (l : list A) (body : B -> A -> M B) (acc : B) : M B :=
  match l with
  | [] => ret acc
  | x :: l' => (acc' <- body acc x ;; for_each l' body acc')%py
  end.

Definition is_ValueError (e : exn) : bool :=
  match e with ValueError _ _ => true | _ => false end.

Definition is_RequestException (e : exn) : bool :=
  match e with RequestException _ => true | _ => false end.

Definition log (e : event) (w : world) : world :=
  {| files := files w; dirs := dirs w; trace := trace w ++ [e] |}.

(** ** Operating-system primitives

    Paths are compared as strings.  The file system is assumed to accept
    what the crawler asks of it: OS-level errors (permissions, a regular
    file sitting where a directory is needed) and encoding errors on write
    are outside this model.  [print] and the [tqdm] progress bar have no
    part in what is stated below and are left out. *)

Module Os.

(** [os.path.join(a, b)] (POSIX) *)
Definition path_join (a b : string) : string :=
  if String.prefix "/" b then b
  else if String.eqb a "" || PyStr.ends_with "/" a then a +:+ b
  else a +:+ "/" +:+ b.

(** The directories [os.makedirs(path)] makes sure exist: [path] and
    every leading part of it. *)
Definition ancestors (path : string) : list string :=
  let segs := PyStr.split "/" path in
  List.filter (fun p => negb (String.eqb p ""))
    (List.map (fun k => PyStr.join "/" (firstn k segs)) (seq 1 (List.length segs))).

(** [os.path.exists(path)]: true for files and for directories *)
Definition path_exists_in (w : world) (path : string) : bool :=
  bool_decide (is_Some (files w !! path)) || bool_decide (path ∈ dirs w).

Definition exists_ (path : string) : M bool :=
  fun w => (Ok (path_exists_in w path), w).

(** [os.makedirs(path, exist_ok=True)] *)
Definition makedirs (path : string) : M unit :=
  fun w => (Ok tt,
            {| files := files w;
               dirs := dirs w ∪ list_to_set (ancestors path);
               trace := trace w ++ [EMakedirs path] |}).

(** [with open(path, "w") as f: f.write(content)]: creates or truncates *)
Definition write_file (path content : string) : M unit :=
  fun w => (Ok tt,
            {| files := <[path := content]> (files w);
               dirs := dirs w;
               trace := trace w ++ [EWrite path content] |}).

(** [time.sleep(secs)] *)
Definition sleep (secs : Z) : M unit :=
  fun w => (Ok tt, log (ESleep secs) w).

End Os.

(** ** Sorting, as [sorted] does on strings (code-point order) *)

Fixpoint insert_sorted (x : string) (l : list string) : list string :=
  match l with
  | [] => [x]
  | y :: l' => if String.leb x y then x :: l else y :: insert_sorted x l'
  end.

Definition sorted (l : list string) : list string :=
  List.fold_right insert_sorted [] l.

(** ** The crawler *)

Section Scraper.

(** The remote site.  Its answer to a GET may depend on everything the
    crawler has done up to, and including, that request. *)
Variable remote : list event -> string -> http_result.

(** [BeautifulSoup(html, 'html.parser')] *)
Variable parse : string -> Soup.node.

(** [urllib.parse.urljoin] *)
Variable urljoin : string -> string -> string.

(** Iteration order of a Python [set] of strings: some enumeration of
    its elements, each once. *)
Variable set_iter : gset string -> list string.
Hypothesis set_iter_perm : forall s, set_iter s ≡ₚ elements s.

Local Open Scope py_scope.

(** [requests.get(url)] / [requests.get(url, timeout=t)] *)
Definition requests_get (url : string) (timeout : option Z) : M response :=
  fun w =>
    let w' := log (EGet url timeout) w in
    match remote (trace w') url with
    | Response r => (Ok r, w')
    | TransportError => (Raise (RequestException url), w')
    end.

Definition fetchHTML (url : string) : M string :=
  Os.sleep 1 ;;;
  try_except
    (response <- requests_get url (Some 5) ;;
     if PyStr.contains UNAVAILABLE_TEXT (text response)
        || (status_code response =? 500)
        || negb (status_code response =? 200)
        || PyStr.contains COULDNT_FIND_TEXT (text response)
     then raise (ValueError url SoftFailure)
     else if PyStr.contains INVALID_TEXT (text response)
     then raise (ValueError url InvalidRequest)
     else ret (text response))
    is_RequestException
    (raise (ValueError url NetworkError)).

Definition fetchAvailableYears (legislation_type : string) : M (list string) :=
  html <- fetchHTML (BASE_URL +:+ "/" +:+ legislation_type) ;;
  let soup := parse html in
  match Soup.find soup "div" (Soup.IdIs "timelineData") with
  | None => raise AttributeError
  | Some timeline_div =>
      let hrefs := Soup.hrefs_of (Soup.find_all timeline_div "a" Soup.HrefPresent) in
      let yearURLs :=
        List.map (fun href => BASE_URL +:+ href)
                 (List.filter (fun href => negb (PyStr.contains "-" href)) hrefs) in
      ret yearURLs
  end.

Definition extract_table_hrefs (soup : Soup.node) : list string :=
  match Soup.find soup "div" (Soup.IdIs "content") with
  | Some table_div =>
      List.flat_map
        (fun td => Soup.hrefs_of (Soup.find_all td "a" Soup.HrefPresent))
        (Soup.find_all table_div "td" Soup.NoFilter)
  | None => []
  end.

(** The [links] list built by the loop of [extract_pagination_links]:
    append unless already there. *)
Fixpoint append_new (links : list string) (urls : list string) : list string :=
  match urls with
  | [] => links
  | u :: urls' =>
      if bool_decide (u ∈ links) then append_new links urls'
      else append_new (links ++ [u]) urls'
  end.

Definition extract_pagination_links (soup : Soup.node) : list string :=
  match Soup.find soup "div" (Soup.ClassIs "prevPagesNextNav") with
  | None => []
  | Some nav_div =>
      let links :=
        append_new []
          (List.map (urljoin BASE_URL)
             (Soup.hrefs_of (Soup.find_all nav_div "a" Soup.HrefPresent))) in
      set_iter (list_to_set links)
  end.

(** The links of the pagination region, resolved, as they stand in the
    page: with repetitions, in document order. *)
Definition nav_links (soup : Soup.node) : list string :=
  match Soup.find soup "div" (Soup.ClassIs "prevPagesNextNav") with
  | None => []
  | Some nav_div =>
      List.map (urljoin BASE_URL)
        (Soup.hrefs_of (Soup.find_all nav_div "a" Soup.HrefPresent))
  end.

Definition fetchAvailablePages (start_url : string) : M (list string) :=
  response <- requests_get start_url None ;;
  let soup := parse (text response) in
  let all_hrefs : gset string := list_to_set (extract_table_hrefs soup) in
  let page_urls := extract_pagination_links soup in
  all_hrefs <-
    for_each page_urls
      (fun (all_hrefs : gset string) url =>
         page <- requests_get url None ;;
         let page_soup := parse (text page) in
         ret (all_hrefs ∪ list_to_set (extract_table_hrefs page_soup)))
      all_hrefs ;;
  let urls :=
    List.map (fun href => BASE_URL +:+ href +:+ "/data.html")
             (sorted (set_iter all_hrefs)) in
  ret urls.

(** The destination of one document: [file_path] in [main]. *)
Definition doc_file_path (dir_path year pageURL : string) : string :=
  Os.path_join dir_path
    (year +:+ "-" +:+ PyStr.join "-" (PyStr.slice 4 7 (PyStr.split "/" pageURL))
          +:+ ".html").

Definition type_dir (legislation_category legislation_type : string) : string :=
  Os.path_join DATA_DIR (legislation_category +:+ "/" +:+ legislation_type).

Definition error_file (legislation_category legislation_type : string) : string :=
  Os.path_join (type_dir legislation_category legislation_type) "errorURL.txt".

(** Body of [for pageURL in pageURLs]; [errorURLs] is the loop-carried
    variable. *)
Definition main_page (dir_path year : string)
           (errorURLs : list string) (pageURL : string) : M (list string) :=
  let file_path := doc_file_path dir_path year pageURL in
  present <- Os.exists_ file_path ;;
  if present then ret errorURLs   (* continue *)
  else
    try_except
      (html <- fetchHTML pageURL ;;
       Os.write_file file_path html ;;;
       ret errorURLs)
      is_ValueError
      (ret (errorURLs ++ [pageURL])).

(** Body of [for yearURL in tqdm.tqdm(yearURLs)] *)
Definition main_year (legislation_category legislation_type : string)
           (errorURLs : list string) (yearURL : string) : M (list string) :=
  pageURLs <- fetchAvailablePages yearURL ;;
  let year := PyStr.last_seg (PyStr.split "/" yearURL) in
  let dir_path := type_dir legislation_category legislation_type in
  Os.makedirs dir_path ;;;
  for_each pageURLs (main_page dir_path year) errorURLs.

(** Body of [for legislation_type in types] *)
Definition main_type (legislation_category legislation_type : string) : M unit :=
  yearURLs <- fetchAvailableYears legislation_type ;;
  errorURLs <-
    for_each yearURLs (main_year legislation_category legislation_type) [] ;;
  match errorURLs with
  | [] => ret tt
  | _ :: _ =>
      Os.write_file (error_file legislation_category legislation_type)
                    (PyStr.join PyStr.newline errorURLs)
  end.

(** [main], over an arbitrary type table; the program runs it on
    [LEGISLATION_TYPES]. *)
Definition main_over (table : list (string * list string)) : M unit :=
  for_each table
    (fun _ '(legislation_category, types) =>
       for_each types (fun _ legislation_type =>
                         main_type legislation_category legislation_type) tt)
    tt.

Definition main : M unit := main_over LEGISLATION_TYPES.

End Scraper.

(** ** A small site to run the crawler on

    Pages are written with single-quoted attributes; [html_parser] is the table
    of the trees [html.parser] builds for exactly these pages. *)

Module Demo.
Import Soup.

Definition a_ (href label : string) : node :=
  Tag "a" [("href", href)] [Text label].

Definition document (body : list node) : node := Tag "[document]" [] body.

(** Index page of type [ukpga]: one year and one hyphenated range. *)
Definition root_html : string :=
  "<div id='timelineData'><a href='/ukpga/2020'>2020</a><a href='/ukpga/1801-1899'>1801-1899</a></div>".
Definition root_dom : node :=
  document [Tag "div" [("id", "timelineData")]
              [a_ "/ukpga/2020" "2020"; a_ "/ukpga/1801-1899" "1801-1899"]].

(** Index page of type [ukla]: nothing published, no timeline. *)
Definition bare_html : string := "<div id='content'></div>".
Definition bare_dom : node := document [Tag "div" [("id", "content")] []].

(** Index page of type [asp]: a timeline without links. *)
Definition empty_timeline_html : string := "<div id='timelineData'></div>".
Definition empty_timeline_dom : node :=
  document [Tag "div" [("id", "timelineData")] []].

(** First listing page of 2020; its pagination links to page 2 twice
    (number and "Next"). *)
Definition year_html : string :=
  "<div id='content'><table><tr><td><a href='/ukpga/2020/1'>Act 1</a></td></tr></table><div class='prevPagesNextNav'><a href='/ukpga/2020?page=2'>2</a><a href='/ukpga/2020?page=2'>Next</a></div></div>".
Definition year_dom : node :=
  document [Tag "div" [("id", "content")]
              [Tag "table" []
                 [Tag "tr" [] [Tag "td" [] [a_ "/ukpga/2020/1" "Act 1"]]];
               Tag "div" [("class", "prevPagesNextNav")]
                 [a_ "/ukpga/2020?page=2" "2"; a_ "/ukpga/2020?page=2" "Next"]]].

(** Second listing page; its pagination links back to the first page. *)
Definition page2_html : string :=
  "<div id='content'><table><tr><td><a href='/ukpga/2020/2'>Act 2</a></td></tr></table><div class='prevPagesNextNav'><a href='/ukpga/2020'>1</a></div></div>".
Definition page2_dom : node :=
  document [Tag "div" [("id", "content")]
              [Tag "table" []
                 [Tag "tr" [] [Tag "td" [] [a_ "/ukpga/2020/2" "Act 2"]]];
               Tag "div" [("class", "prevPagesNextNav")]
                 [a_ "/ukpga/2020" "1"]]].

(** A listing page whose pagination names the page itself. *)
Definition selflink_html : string :=
  "<div id='content'><div class='prevPagesNextNav'><a href='/ukpga/2021'>1</a></div></div>".
Definition selflink_dom : node :=
  document [Tag "div" [("id", "content")]
              [Tag "div" [("class", "prevPagesNextNav")]
                 [a_ "/ukpga/2021" "1"]]].

Definition act1_html : string := "<html>Act 1</html>".
Definition act2_html : string := "<html>" +:+ UNAVAILABLE_TEXT +:+ "</html>".

Definition html_parser (html : string) : node :=
  if String.eqb html root_html then root_dom
  else if String.eqb html bare_html then bare_dom
  else if String.eqb html empty_timeline_html then empty_timeline_dom
  else if String.eqb html year_html then year_dom
  else if String.eqb html page2_html then page2_dom
  else if String.eqb html selflink_html then selflink_dom
  else document [Text html].

Definition ok (body : string) : http_result :=
  Response {| status_code := 200; text := body |}.

(** The site answers the same whatever happened before. *)
Definition site (_ : list event) (url : string) : http_result :=
  if String.eqb url "http://www.legislation.gov.uk/ukpga" then ok root_html
  else if String.eqb url "http://www.legislation.gov.uk/ukla" then ok bare_html
  else if String.eqb url "http://www.legislation.gov.uk/asp" then ok empty_timeline_html
  else if String.eqb url "http://www.legislation.gov.uk/ukpga/2020" then ok year_html
  else if String.eqb url "http://www.legislation.gov.uk/ukpga/2020?page=2" then ok page2_html
  else if String.eqb url "http://www.legislation.gov.uk/ukpga/2021" then ok selflink_html
  else if String.eqb url "http://www.legislation.gov.uk/ukpga/2020/1/data.html" then ok act1_html
  else if String.eqb url "http://www.legislation.gov.uk/ukpga/2020/2/data.html" then ok act2_html
  else if String.eqb url "http://www.legislation.gov.uk/gone" then
    Response {| status_code := 404; text := "" |}
  else TransportError.

(** [urljoin] of the origin (a base without path) and a reference: an
    absolute-path reference is appended to the origin, an absolute URL
    stands for itself.  The pages above use no other kind. *)
Definition url_join (base href : string) : string :=
  if String.prefix "/" href then base +:+ href else href.

(** One possible iteration order of a set *)
Definition set_order (s : gset string) : list string := elements s.

Definition year_url : string := "http://www.legislation.gov.uk/ukpga/2020".
Definition page2_url : string := "http://www.legislation.gov.uk/ukpga/2020?page=2".
Definition selflink_url : string := "http://www.legislation.gov.uk/ukpga/2021".
Definition act1_url : string := "http://www.legislation.gov.uk/ukpga/2020/1/data.html".
Definition act2_url : string := "http://www.legislation.gov.uk/ukpga/2020/2/data.html".

Definition act1_path : string :=
  "legislation_data/Primary Legislation/ukpga/2020-2020-1-data.html.html".
Definition act2_path : string :=
  "legislation_data/Primary Legislation/ukpga/2020-2020-2-data.html.html".
Definition ukpga_errors : string :=
  "legislation_data/Primary Legislation/ukpga/errorURL.txt".

(** Nothing on disk, nothing done yet. *)
Definition empty_world : world := {| files := ∅; dirs := ∅; trace := [] |}.

(** The disk an earlier run left: both acts stored, and an error file
    naming act 2 from a run before that. *)
Definition resumed_world : world :=
  {| files := {[ act1_path := "<html>Act 1, as stored</html>";
                 act2_path := "<html>Act 2, as stored</html>";
                 ukpga_errors := act2_url ]};
     dirs := {[ "legislation_data"; "legislation_data/Primary Legislation";
                "legislation_data/Primary Legislation/ukpga" ]};
     trace := [] |}.

(** The crawler on this site *)
Definition fetchHTML_demo := fetchHTML site.
Definition fetchAvailableYears_demo := fetchAvailableYears site html_parser.
Definition fetchAvailablePages_demo :=
  fetchAvailablePages site html_parser url_join set_order.
Definition main_year_demo := main_year site html_parser url_join set_order.
Definition main_type_demo := main_type site html_parser url_join set_order.
Definition main_over_demo := main_over site html_parser url_join set_order.

End Demo.

(** ** What a computation leaves behind: shared vocabulary for the proofs *)

(** The world right after [fetchHTML url] was called in [w]: files and
    directories as before, one sleep and one request logged. *)
Definition fetched (url : string) (w : world) : world :=
  {| files := files w; dirs := dirs w;
     trace := trace w ++ [ESleep 1; EGet url (Some 5)] |}.

(** How [fetchHTML] reads the site's answer. *)
Definition verdict (url : string) (h : http_result) : result string :=
  match h with
  | TransportError => Raise (ValueError url NetworkError)
  | Response r =>
      if PyStr.contains UNAVAILABLE_TEXT (text r)
         || (status_code r =? 500)
         || negb (status_code r =? 200)
         || PyStr.contains COULDNT_FIND_TEXT (text r)
      then Raise (ValueError url SoftFailure)
      else if PyStr.contains INVALID_TEXT (text r)
      then Raise (ValueError url InvalidRequest)
      else Ok (text r)
  end.

(** The events logged between two worlds of one run. *)
Definition new_events (w w' : world) : list event :=
  skipn (List.length (trace w)) (trace w').

(** The URLs requested in a log, in order, whoever asked. *)
Definition requested (tr : list event) : list string :=
  omap (fun e => match e with EGet url _ => Some url | _ => None end) tr.

(** The politeness rule on a log: between two requests, and before the
    first, there is a sleep of at least [delay].  [rested] tells whether
    such a sleep happened since the last request. *)
Fixpoint waits_from (delay : Z) (rested : bool) (tr : list event) : bool :=
  match tr with
  | [] => true
  | ESleep secs :: tr' => waits_from delay (rested || (delay <=? secs)) tr'
  | EGet _ _ :: tr' => rested && waits_from delay false tr'
  | _ :: tr' => waits_from delay rested tr'
  end.

Definition every_request_waits (delay : Z) (tr : list event) : bool :=
  waits_from delay false tr.

(** Type root page: [f"{BASE_URL}/{legislation_type}"] *)
Definition root_url (legislation_type : string) : string :=
  BASE_URL +:+ "/" +:+ legislation_type.

(** [m] relates the world it starts in to the world it leaves, whatever
    its result. *)
Definition respects {A} (R : relation world) (m : M A) : Prop :=
  forall w, R w (m w).2.

(** Only the log grew, and only by events that satisfy [P]. *)
Definition only_logs (P : event -> Prop) : relation world :=
  fun w w' =>
    files w' = files w /\ dirs w' = dirs w /\
    exists new, trace w' = trace w ++ new /\ Forall P new.

(** A request made without timeout, as [fetchAvailablePages] makes them. *)
Definition is_bare_get (e : event) : Prop := exists url, e = EGet url None.

(** The log grew by events that satisfy [P], directories were only added,
    and a file that no logged write names is as it was. *)
Definition quiet (P : event -> Prop) : relation world :=
  fun w w' =>
    exists new,
      trace w' = trace w ++ new /\ Forall P new /\
      dirs w ⊆ dirs w' /\
      forall p, (forall c, EWrite p c ∉ new) -> files w' !! p = files w !! p.

(** No write to the file [path] *)
Definition spares (path : string) (e : event) : Prop :=
  forall c, e <> EWrite path c.

(** Neither a write to [path] nor a [fetchHTML] request for [url] *)
Definition skips (path url : string) (e : event) : Prop :=
  spares path e /\ e <> EGet url (Some 5).

(** The document fetches that failed, read off the log: the URLs of the
    requests with a timeout (those of [fetchHTML]) that the site answered
    with something [fetchHTML] rejects.  [before] is the log up to the
    events [tr] under examination. *)
Fixpoint failed_fetches (remote : list event -> string -> http_result)
         (before tr : list event) : list string :=
  match tr with
  | [] => []
  | e :: tr' =>
      let upto := before ++ [e] in
      match e with
      | EGet url (Some _) =>
          match verdict url (remote upto url) with
          | Ok _ => []
          | Raise _ => [url]
          end
      | _ => []
      end ++ failed_fetches remote upto tr'
  end.

(** A path that is some type's [errorURL.txt] *)
Definition is_error_file (path : string) : Prop :=
  exists cat ty, path = error_file cat ty.

(** What was on disk before is kept: directories stay, and a path that
    existed and is no error file is named by no logged write and still
    holds what it held. *)
Definition keeps_existing : relation world :=
  fun w w' =>
    exists new,
      trace w' = trace w ++ new /\
      dirs w ⊆ dirs w' /\
      forall p, Os.path_exists_in w p = true -> ~ is_error_file p ->
                files w' !! p = files w !! p /\ forall c, EWrite p c ∉ new.

(** A body [fetchHTML] hands out: none of the three marker texts in it *)
Definition clean_body (body : string) : Prop :=
  PyStr.contains UNAVAILABLE_TEXT body = false /\
  PyStr.contains COULDNT_FIND_TEXT body = false /\
  PyStr.contains INVALID_TEXT body = false.

(** The same site, every response of which carries status [code] *)
Definition with_status (code : Z) (remote : list event -> string -> http_result)
  : list event -> string -> http_result :=
  fun tr url =>
    match remote tr url with
    | Response r => Response {| status_code := code; text := text r |}
    | TransportError => TransportError
    end.

(** [pageURL.split('/')[4:7]], the part of a document URL that names its
    file *)
Definition name_segments (pageURL : string) : list string :=
  PyStr.slice 4 7 (PyStr.split "/" pageURL).

(** A site that gives out, besides what [Demo.site] has, a page the
    remote service does not recognise and a page carrying two marker
    texts at once. *)
Module Demo2.

Definition invalid_url : string := "http://www.legislation.gov.uk/ukpga/2020/3/data.html".
Definition invalid_html : string := "<html>" +:+ INVALID_TEXT +:+ "</html>".

Definition both_url : string := "http://www.legislation.gov.uk/ukpga/2020/4/data.html".
Definition both_html : string :=
  "<html>" +:+ INVALID_TEXT +:+ COULDNT_FIND_TEXT +:+ "</html>".

(** Type [nia]: two years; the listing of 2019 names one act, whose page
    is gone (404); the listing of 2018 cannot be reached at all. *)
Definition nia_root_html : string :=
  "<div id='timelineData'><a href='/nia/2019'>2019</a><a href='/nia/2018'>2018</a></div>".
Definition nia_root_dom : Soup.node :=
  Demo.document [Soup.Tag "div" [("id", "timelineData")]
                   [Demo.a_ "/nia/2019" "2019"; Demo.a_ "/nia/2018" "2018"]].

Definition nia_2019_html : string :=
  "<div id='content'><table><tr><td><a href='/nia/2019/1'>Act 1</a></td></tr></table></div>".
Definition nia_2019_dom : Soup.node :=
  Demo.document [Soup.Tag "div" [("id", "content")]
                   [Soup.Tag "table" []
                      [Soup.Tag "tr" []
                         [Soup.Tag "td" [] [Demo.a_ "/nia/2019/1" "Act 1"]]]]].

Definition nia_2019_url : string := "http://www.legislation.gov.uk/nia/2019".
Definition nia_2018_url : string := "http://www.legislation.gov.uk/nia/2018".
Definition nia_act_url : string := "http://www.legislation.gov.uk/nia/2019/1/data.html".

(** A document of another type with the naming segments of act 1 of
    [ukpga] *)
Definition uksi_act1_url : string := "http://www.legislation.gov.uk/uksi/2020/1/data.html".

Definition html_parser (html : string) : Soup.node :=
  if String.eqb html nia_root_html then nia_root_dom
  else if String.eqb html nia_2019_html then nia_2019_dom
  else Demo.html_parser html.

Definition site (tr : list event) (url : string) : http_result :=
  if String.eqb url invalid_url then Demo.ok invalid_html
  else if String.eqb url both_url then Demo.ok both_html
  else if String.eqb url "http://www.legislation.gov.uk/nia" then Demo.ok nia_root_html
  else if String.eqb url nia_2019_url then Demo.ok nia_2019_html
  else if String.eqb url nia_act_url then Response {| status_code := 404; text := "" |}
  else Demo.site tr url.

(** The crawler on this site *)
Definition main_year_demo2 := main_year site html_parser Demo.url_join Demo.set_order.
Definition main_type_demo2 := main_type site html_parser Demo.url_join Demo.set_order.
Definition main_over_demo2 := main_over site html_parser Demo.url_join Demo.set_order.

End Demo2.

(** A write event that stores a clean body (any other event passes) *)
Definition writes_clean (e : event) : Prop :=
  forall p c, e = EWrite p c -> clean_body c.

(** [urljoin(origin, href)] for an origin (a base URL without path) and
    the kinds of reference a link can hold: an absolute URL stands for
    itself, a network-path reference ([//host/...]) takes the scheme of
    the origin, an absolute path is appended to the origin, and a relative
    path is appended after a slash.  References with dot segments, or made
    of a query or fragment only, are not covered. *)
Definition resolve_against_origin (origin href : string) : string :=
  if String.prefix "http://" href || String.prefix "https://" href then href
  else if String.prefix "//" href then "http:" +:+ href
  else if String.prefix "/" href then origin +:+ href
  else origin +:+ "/" +:+ href.

(** A type whose timeline links are written in three ways: as an absolute
    path, as an absolute URL, and as a relative path. *)
Module Demo3.

Definition ukcm_root_html : string :=
  "<div id='timelineData'><a href='/ukcm/2020'>2020</a><a href='http://www.legislation.gov.uk/ukcm/2021'>2021</a><a href='ukcm/2022'>2022</a></div>".
Definition ukcm_timeline : Soup.node :=
  Soup.Tag "div" [("id", "timelineData")]
    [Demo.a_ "/ukcm/2020" "2020";
     Demo.a_ "http://www.legislation.gov.uk/ukcm/2021" "2021";
     Demo.a_ "ukcm/2022" "2022"].
Definition ukcm_root_dom : Soup.node := Demo.document [ukcm_timeline].

Definition html_parser (html : string) : Soup.node :=
  if String.eqb html ukcm_root_html then ukcm_root_dom
  else Demo.html_parser html.

Definition site (tr : list event) (url : string) : http_result :=
  if String.eqb url "http://www.legislation.gov.uk/ukcm" then Demo.ok ukcm_root_html
  else Demo.site tr url.

Definition fetchAvailableYears_demo3 := fetchAvailableYears site html_parser.

End Demo3.

(** ** Sanity checks of the string and path helpers *)

Example split_doc_url :
  PyStr.split "/" "http://www.legislation.gov.uk/ukpga/2020/1/data.html"
  = ["http:"; ""; "www.legislation.gov.uk"; "ukpga"; "2020"; "1"; "data.html"].
Proof. reflexivity. Qed.

(** 183 code points, 189 bytes of UTF-8 *)
Example unavailable_len : String.length UNAVAILABLE_TEXT = 189%nat.
Proof. reflexivity. Qed.

Example ancestors_type_dir :
  Os.ancestors "legislation_data/Primary Legislation/ukpga"
  = ["legislation_data"; "legislation_data/Primary Legislation";
     "legislation_data/Primary Legislation/ukpga"].
Proof. reflexivity. Qed.

(** ** Facts about the crawler *)

(** Lines: joining with line feeds and splitting at them are inverse on
    non-empty lists of strings without line feed. *)

Lemma contains_char_cons (c d : ascii) (s : string) :
  PyStr.contains (String c EmptyString) (String d s)
  = Ascii.eqb d c || PyStr.contains (String c EmptyString) s.
Proof.
  cbn [PyStr.contains String.prefix].
  destruct (ascii_dec c d) as [->|Hne].
  - rewrite Ascii.eqb_refl. now destruct s.
  - apply not_eq_sym, Ascii.eqb_neq in Hne. now rewrite Hne.
Qed.

Lemma split_no_sep (c : ascii) (s : string) :
  PyStr.contains (String c EmptyString) s = false -> PyStr.split c s = [s].
Proof.
  induction s as [|d s IH]; [reflexivity|].
  rewrite contains_char_cons. intros H. apply orb_false_iff in H as [Hd Hs].
  cbn [PyStr.split]. now rewrite Hd, (IH Hs).
Qed.

Lemma split_app_sep (c : ascii) (a b : string) :
  PyStr.contains (String c EmptyString) a = false ->
  PyStr.split c (a +:+ String c b) = a :: PyStr.split c b.
Proof.
  induction a as [|d a IH]; intros H.
  - change (EmptyString +:+ String c b) with (String c b).
    cbn [PyStr.split]. now rewrite Ascii.eqb_refl.
  - rewrite contains_char_cons in H. apply orb_false_iff in H as [Hd Ha].
    change (String d a +:+ String c b) with (String d (a +:+ String c b)).
    cbn [PyStr.split]. now rewrite Hd, (IH Ha).
Qed.


(** Strings: append, and the pieces [split] cuts *)

Lemma string_app_assoc (a b c : string) : (a +:+ b) +:+ c = a +:+ b +:+ c.
Proof.
  induction a as [|x a IH]; [reflexivity|].
  change (String x ((a +:+ b) +:+ c) = String x (a +:+ (b +:+ c))). now f_equal.
Qed.

Lemma string_app_length (a b : string) :
  String.length (a +:+ b) = (String.length a + String.length b)%nat.
Proof.
  induction a as [|x a IH]; [reflexivity|].
  change (S (String.length (a +:+ b)) = S (String.length a + String.length b)).
  now f_equal.
Qed.

Lemma string_app_inv_tail (a b s : string) : a +:+ s = b +:+ s -> a = b.
Proof.
  revert b. induction a as [|x a IH]; intros [|y b] H.
  - reflexivity.
  - apply (f_equal String.length) in H.
    rewrite (string_app_length (String y b) s) in H.
    change (EmptyString +:+ s) with s in H. cbn in H. lia.
  - apply (f_equal String.length) in H.
    rewrite (string_app_length (String x a) s) in H.
    change (EmptyString +:+ s) with s in H. cbn in H. lia.
  - injection H as -> H. f_equal. now apply IH.
Qed.

Lemma split_nonempty (c : ascii) (s : string) : PyStr.split c s <> [].
Proof.
  destruct s as [|d s]; [discriminate|]. cbn [PyStr.split].
  destruct (Ascii.eqb d c); [discriminate|].
  destruct (PyStr.split c s); discriminate.
Qed.

(** No piece holds the separator. *)
Lemma split_pieces_free (c : ascii) (s : string) :
  Forall (fun p => PyStr.contains (String c EmptyString) p = false) (PyStr.split c s).
Proof.
  induction s as [|d s IH]; [repeat constructor|]. cbn [PyStr.split].
  destruct (Ascii.eqb d c) eqn:Hd; [constructor; [reflexivity|exact IH]|].
  destruct (PyStr.split c s) as [|w ws]; [repeat constructor; now rewrite contains_char_cons, Hd|].
  apply Forall_cons in IH as [Hw Hws]. constructor; [|exact Hws].
  now rewrite contains_char_cons, Hd.
Qed.

(** [sep.join(s.split(sep)) == s] *)
Lemma join_split (c : ascii) (s : string) :
  PyStr.join (String c EmptyString) (PyStr.split c s) = s.
Proof.
  induction s as [|d s IH]; [reflexivity|]. cbn [PyStr.split].
  pose proof (split_nonempty c s) as Hne.
  destruct (PyStr.split c s) as [|w ws]; [contradiction|].
  destruct (Ascii.eqb d c) eqn:Hd.
  - apply Ascii.eqb_eq in Hd as ->.
    change (PyStr.join (String c EmptyString) (EmptyString :: w :: ws))
      with (String c (PyStr.join (String c EmptyString) (w :: ws))).
    now rewrite IH.
  - rewrite <- IH. destruct ws; reflexivity.
Qed.

(** [sep.join(parts).split(sep) == parts], for pieces without separator *)
Lemma split_join (c : ascii) (parts : list string) :
  parts <> [] ->
  Forall (fun p => PyStr.contains (String c EmptyString) p = false) parts ->
  PyStr.split c (PyStr.join (String c EmptyString) parts) = parts.
Proof.
  induction parts as [|p rest IH]; [contradiction|].
  intros _ Hall. apply Forall_cons in Hall as [Hp Hrest].
  destruct rest as [|p' rest'].
  - now apply split_no_sep.
  - change (PyStr.join (String c EmptyString) (p :: p' :: rest'))
      with (p +:+ String c (PyStr.join (String c EmptyString) (p' :: rest'))).
    rewrite (split_app_sep _ _ _ Hp). f_equal. now apply IH.
Qed.

(** Splitting after a separator: the pieces before, then the pieces after. *)
Lemma split_app (c : ascii) (a b : string) :
  PyStr.split c (a +:+ String c b) = PyStr.split c a ++ PyStr.split c b.
Proof.
  induction a as [|d a IH].
  - change (EmptyString +:+ String c b) with (String c b).
    cbn [PyStr.split app]. now rewrite Ascii.eqb_refl.
  - change (String d a +:+ String c b) with (String d (a +:+ String c b)).
    cbn [PyStr.split]. rewrite IH.
    pose proof (split_nonempty c a) as Hne.
    destruct (PyStr.split c a) as [|w ws]; [contradiction|].
    destruct (Ascii.eqb d c); reflexivity.
Qed.

Lemma last_app_nonempty {A} (l1 l2 : list A) (d : A) :
  l2 <> [] -> List.last (l1 ++ l2) d = List.last l2 d.
Proof.
  intros Hne. induction l1 as [|x l1 IH]; [reflexivity|].
  cbn [app]. rewrite <- IH. cbn [List.last].
  destruct (l1 ++ l2) eqn:Happ; [|reflexivity].
  apply app_eq_nil in Happ as [_ ->]. contradiction.
Qed.

(** [sorted]: the same elements, in order *)

Lemma insert_sorted_perm (x : string) (l : list string) : insert_sorted x l ≡ₚ x :: l.
Proof.
  induction l as [|y l IH]; [reflexivity|]. cbn [insert_sorted].
  destruct (String.leb x y); [reflexivity|].
  rewrite IH. apply Permutation_swap.
Qed.

Lemma sorted_perm (l : list string) : sorted l ≡ₚ l.
Proof.
  induction l as [|x l IH]; [reflexivity|].
  cbn [sorted fold_right]. rewrite insert_sorted_perm. now f_equiv.
Qed.

Lemma insert_sorted_HdRel (a x : string) (l : list string) :
  String.leb a x = true ->
  HdRel (fun s t => String.leb s t = true) a l ->
  HdRel (fun s t => String.leb s t = true) a (insert_sorted x l).
Proof.
  intros Hax Hal. destruct l as [|y l]; [now constructor|].
  cbn [insert_sorted]. destruct (String.leb x y); constructor; [exact Hax|].
  now inversion Hal.
Qed.

Lemma insert_sorted_Sorted (x : string) (l : list string) :
  Sorted (fun s t => String.leb s t = true) l ->
  Sorted (fun s t => String.leb s t = true) (insert_sorted x l).
Proof.
  induction l as [|y l IH]; intros Hs; [repeat constructor|].
  cbn [insert_sorted]. destruct (String.leb x y) eqn:Hxy.
  - constructor; [exact Hs|now constructor].
  - apply Sorted_inv in Hs as [Hs Hhd]. constructor; [now apply IH|].
    apply insert_sorted_HdRel; [|exact Hhd].
    destruct (String.leb_total x y) as [H|H]; [congruence|exact H].
Qed.

Lemma sorted_Sorted (l : list string) :
  Sorted (fun s t => String.leb s t = true) (sorted l).
Proof.
  induction l as [|x l IH]; [constructor|].
  cbn [sorted fold_right]. now apply insert_sorted_Sorted.
Qed.

Lemma NoDup_map_inj {A B} (f : A -> B) (l : list A) :
  (forall x y, f x = f y -> x = y) -> NoDup l -> NoDup (List.map f l).
Proof.
  intros Hinj. induction 1 as [|x l Hx Hnd IH]; [constructor|].
  cbn [List.map]. constructor; [|exact IH].
  intros Hin. apply list_elem_of_In, in_map_iff in Hin as (y & Hy & Hin).
  apply Hinj in Hy as ->. now apply Hx, list_elem_of_In.
Qed.

(** [f"{BASE_URL}{href}/data.html"] tells hrefs apart. *)
Lemma data_url_inj (h1 h2 : string) :
  BASE_URL +:+ h1 +:+ "/data.html" = BASE_URL +:+ h2 +:+ "/data.html" -> h1 = h2.
Proof.
  intros H. apply String.app_inj in H. now apply string_app_inv_tail in H.
Qed.

(** Paths and file names *)

Lemma Forall_last {A} (P : A -> Prop) (l : list A) (d : A) :
  Forall P l -> P d -> P (List.last l d).
Proof.
  intros Hall Hd. induction Hall as [|x l Hx Hall IH]; [exact Hd|].
  cbn [List.last]. destruct l; [exact Hx|exact IH].
Qed.

(** [s.split(sep)[-1]] holds no separator. *)
Lemma last_seg_free (c : ascii) (s : string) :
  PyStr.contains (String c EmptyString) (PyStr.last_seg (PyStr.split c s)) = false.
Proof.
  unfold PyStr.last_seg.
  apply (Forall_last (fun p => PyStr.contains (String c EmptyString) p = false));
    [apply split_pieces_free|reflexivity].
Qed.

Lemma not_absolute (year rest : string) :
  PyStr.contains "/" year = false ->
  String.prefix "/" (year +:+ String "-" rest) = false.
Proof.
  destruct year as [|d year]; [reflexivity|].
  rewrite contains_char_cons. intros H. apply orb_false_iff in H as [Hd _].
  change (String d year +:+ String "-" rest) with (String d (year +:+ String "-" rest)).
  cbn [String.prefix]. destruct (ascii_dec "/" d) as [<-|]; [discriminate|reflexivity].
Qed.

(** [os.path.join(a, b)] tells relative [b] apart. *)
Lemma path_join_inj (a b1 b2 : string) :
  String.prefix "/" b1 = false -> String.prefix "/" b2 = false ->
  Os.path_join a b1 = Os.path_join a b2 -> b1 = b2.
Proof.
  unfold Os.path_join. intros -> ->. destruct (_ || _); intros H.
  - now apply String.app_inj in H.
  - apply String.app_inj in H. now apply String.app_inj in H.
Qed.

(** X9 -- the file of a document at [/type/year/number]: its name is the
    year label, then the second and third path segments and the literal
    [data.html], joined by hyphens, with [.html] appended; the type code
    is not part of the name. *)
Theorem doc_file_path_standard_url (dir_path year t y n : string) :
  PyStr.contains "/" t = false ->
  PyStr.contains "/" y = false ->
  PyStr.contains "/" n = false ->
  doc_file_path dir_path year
    (BASE_URL +:+ ("/" +:+ t +:+ "/" +:+ y +:+ "/" +:+ n) +:+ "/data.html")
  = Os.path_join dir_path (year +:+ "-" +:+ y +:+ "-" +:+ n +:+ "-data.html.html").
Proof.
  intros Ht Hy Hn. unfold doc_file_path. do 2 f_equal.
  rewrite !string_app_assoc.
  change ("/" +:+ t +:+ "/" +:+ y +:+ "/" +:+ n +:+ "/data.html")
    with (String "/" (t +:+ String "/" (y +:+ String "/" (n +:+ String "/" "data.html")))).
  rewrite split_app, (split_app_sep _ _ _ Ht), (split_app_sep _ _ _ Hy),
          (split_app_sep _ _ _ Hn).
  cbn [BASE_URL]. cbn. now rewrite !string_app_assoc.
Qed.

(** X10 -- within a year, documents whose naming segments (path segments
    4 to 6 of the URL) differ get different files, as long as the segments
    are there and hold no hyphen. *)
Theorem doc_file_path_distinct (dir_path yearURL u1 u2 : string) :
  name_segments u1 <> [] -> name_segments u2 <> [] ->
  Forall (fun seg => PyStr.contains "-" seg = false) (name_segments u1) ->
  Forall (fun seg => PyStr.contains "-" seg = false) (name_segments u2) ->
  name_segments u1 <> name_segments u2 ->
  doc_file_path dir_path (PyStr.last_seg (PyStr.split "/" yearURL)) u1
  <> doc_file_path dir_path (PyStr.last_seg (PyStr.split "/" yearURL)) u2.
Proof.
  intros Hne1 Hne2 Hf1 Hf2 Hdiff Heq. apply Hdiff.
  unfold doc_file_path in Heq. fold (name_segments u1) (name_segments u2) in Heq.
  pose proof (last_seg_free "/" yearURL) as Hyear.
  apply path_join_inj in Heq; [|now apply not_absolute..].
  apply String.app_inj in Heq. injection Heq as Heq.
  apply (string_app_inv_tail (PyStr.join "-" (name_segments u1))
           (PyStr.join "-" (name_segments u2)) ".html") in Heq.
  rewrite <- (split_join "-" _ Hne1 Hf1), <- (split_join "-" _ Hne2 Hf2).
  now rewrite Heq.
Qed.

(** X12 -- the year label of a year URL is what follows its last slash. *)
Theorem year_label_after_last_slash (front label : string) :
  PyStr.contains "/" label = false ->
  PyStr.last_seg (PyStr.split "/" (front +:+ "/" +:+ label)) = label.
Proof.
  intros Hfree. change ("/" +:+ label) with (String "/" label).
  unfold PyStr.last_seg. rewrite split_app, (split_no_sep _ _ Hfree).
  now rewrite last_app_nonempty.
Qed.

(** [os.makedirs(path)] does make [path] itself. *)
Lemma ancestors_self (path : string) : path <> EmptyString -> path ∈ Os.ancestors path.
Proof.
  intros Hne. unfold Os.ancestors. apply list_elem_of_In, filter_In. split.
  - apply in_map_iff. exists (List.length (PyStr.split "/" path)). split.
    + now rewrite firstn_all, join_split.
    + apply in_seq. pose proof (split_nonempty "/" path).
      destruct (PyStr.split "/" path); [contradiction|cbn; lia].
  - apply negb_true_iff, String.eqb_neq, Hne.
Qed.

Lemma type_dir_nonempty (cat ty : string) : type_dir cat ty <> EmptyString.
Proof.
  unfold type_dir, Os.path_join.
  destruct (String.prefix "/" (cat +:+ "/" +:+ ty)) eqn:Hp.
  - intros Heq. rewrite Heq in Hp. discriminate.
  - cbn. discriminate.
Qed.

(** The [links] of [extract_pagination_links] hold every URL once. *)
Lemma append_new_spec (urls links : list string) :
  NoDup links ->
  NoDup (append_new links urls) /\
  forall u, u ∈ append_new links urls <-> u ∈ links \/ u ∈ urls.
Proof.
  revert links. induction urls as [|x urls IH]; intros links Hnd; cbn [append_new].
  - split; [exact Hnd|]. intros u. rewrite elem_of_nil. tauto.
  - case_bool_decide as Hx.
    + destruct (IH links Hnd) as [Hnd' Hmem]. split; [exact Hnd'|].
      intros u. rewrite Hmem, elem_of_cons.
      split; [tauto|]. intros [?|[->|?]]; tauto.
    + assert (NoDup (links ++ [x])) as Hnd1.
      { apply NoDup_app. split; [exact Hnd|]. split; [|apply NoDup_singleton].
        intros y Hy Hy'. apply list_elem_of_singleton in Hy'. now subst y. }
      destruct (IH _ Hnd1) as [Hnd' Hmem]. split; [exact Hnd'|].
      intros u. rewrite Hmem, elem_of_app, list_elem_of_singleton, elem_of_cons.
      tauto.
Qed.

Section ScraperFacts.

#[local] Set Default Proof Using "Type".

Context (remote : list event -> string -> http_result)
        (parse : string -> Soup.node)
        (urljoin : string -> string -> string)
        (set_iter : gset string -> list string).
Hypothesis set_iter_perm : forall s, set_iter s ≡ₚ elements s.

Local Notation "'run_years'" := (fetchAvailableYears remote parse).
Local Notation "'run_pages'" := (fetchAvailablePages remote parse urljoin set_iter).
Local Notation "'run_type'" := (main_type remote parse urljoin set_iter).
Local Notation "'run_year'" := (main_year remote parse urljoin set_iter).
Local Notation "'run_main'" := (main_over remote parse urljoin set_iter).

(** *** The monad *)

Lemma bind_ok {A B} (m : M A) (k : A -> M B) w a w' :
  m w = (Ok a, w') -> bind m k w = k a w'.
Proof. intros H. unfold bind. now rewrite H. Qed.

Lemma bind_raise {A B} (m : M A) (k : A -> M B) w e w' :
  m w = (Raise e, w') -> bind m k w = (Raise e, w').
Proof. intros H. unfold bind. now rewrite H. Qed.

Lemma for_each_app {A B} (l1 l2 : list A) (body : B -> A -> M B) acc w :
  for_each (l1 ++ l2) body acc w =
  bind (for_each l1 body acc) (for_each l2 body) w.
Proof.
  revert acc w. induction l1 as [|x l1 IH]; intros acc w; simpl.
  - reflexivity.
  - unfold bind. destruct (body acc x w) as [[acc'|e] w1]; [|reflexivity].
    rewrite IH. reflexivity.
Qed.

(** *** [fetchHTML] *)

Lemma fetchHTML_unfold url w :
  fetchHTML remote url w = (verdict url (remote (trace (fetched url w)) url), fetched url w).
Proof.
  unfold fetchHTML, bind, try_except, requests_get, Os.sleep, log, fetched, verdict.
  cbn [trace files dirs]. rewrite <- app_assoc. cbn [app].
  destruct (remote _ url) as [|r]; cbn [is_RequestException raise]; [reflexivity|].
  destruct (_ || _ || _ || _); cbn; [reflexivity|].
  destruct (PyStr.contains INVALID_TEXT _); reflexivity.
Qed.

(** C2 -- a 200 answer whose body carries the "unavailable in
    web-publishable format" text or the "page could not be found" text,
    and any answer with status 500 or another status than 200, makes
    [fetchHTML] raise its soft-failure error instead of returning the
    body. *)
Theorem fetchHTML_soft_failure (url : string) (w : world) (r : response) :
  remote (trace w ++ [ESleep 1; EGet url (Some 5)]) url = Response r ->
  (status_code r = 200 /\
     (PyStr.contains UNAVAILABLE_TEXT (text r) = true \/
      PyStr.contains COULDNT_FIND_TEXT (text r) = true))
  \/ status_code r = 500
  \/ status_code r <> 200 ->
  fetchHTML remote url w = (Raise (ValueError url SoftFailure), fetched url w).
Proof.
  intros Hr Hcase. rewrite fetchHTML_unfold. f_equal.
  cbn [fetched trace]. rewrite Hr. unfold verdict.
  assert (PyStr.contains UNAVAILABLE_TEXT (text r)
          || (status_code r =? 500)
          || negb (status_code r =? 200)
          || PyStr.contains COULDNT_FIND_TEXT (text r) = true) as ->;
    [|reflexivity].
  rewrite !orb_true_iff, negb_true_iff, Z.eqb_eq, Z.eqb_neq.
  destruct Hcase as [[_ [Hu|Hc]]|[H500|Hne]]; auto.
Qed.

(** A transport-level failure becomes the "something else" error. *)
Lemma fetchHTML_transport_error url w :
  remote (trace w ++ [ESleep 1; EGet url (Some 5)]) url = TransportError ->
  fetchHTML remote url w = (Raise (ValueError url NetworkError), fetched url w).
Proof.
  intros H. rewrite fetchHTML_unfold. cbn [fetched trace]. now rewrite H.
Qed.

(** *** [fetchAvailableYears] *)

Lemma fetchAvailableYears_fetch_fails ty w e w1 :
  fetchHTML remote (root_url ty) w = (Raise e, w1) ->
  run_years ty w = (Raise e, w1).
Proof. intros H. unfold fetchAvailableYears. now apply bind_raise. Qed.

(** Without a timeline region the call ends in
    [AttributeError]: [timeline_div] is [None] and has no [find_all]. *)
Lemma fetchAvailableYears_no_timeline ty w html w1 :
  fetchHTML remote (root_url ty) w = (Ok html, w1) ->
  Soup.find (parse html) "div" (Soup.IdIs "timelineData") = None ->
  run_years ty w = (Raise AttributeError, w1).
Proof.
  intros Hf Hnone. unfold fetchAvailableYears.
  rewrite (bind_ok _ _ _ _ _ Hf). now rewrite Hnone.
Qed.

Lemma fetchAvailableYears_timeline ty w html w1 timeline_div :
  fetchHTML remote (root_url ty) w = (Ok html, w1) ->
  Soup.find (parse html) "div" (Soup.IdIs "timelineData") = Some timeline_div ->
  run_years ty w =
  (Ok (List.map (fun href => BASE_URL +:+ href)
         (List.filter (fun href => negb (PyStr.contains "-" href))
            (Soup.hrefs_of (Soup.find_all timeline_div "a" Soup.HrefPresent)))),
   w1).
Proof.
  intros Hf Hsome. unfold fetchAvailableYears.
  rewrite (bind_ok _ _ _ _ _ Hf). now rewrite Hsome.
Qed.

(** A timeline region that holds no link gives no years, and no error. *)
Lemma fetchAvailableYears_no_links ty w html w1 timeline_div :
  fetchHTML remote (root_url ty) w = (Ok html, w1) ->
  Soup.find (parse html) "div" (Soup.IdIs "timelineData") = Some timeline_div ->
  Soup.find_all timeline_div "a" Soup.HrefPresent = [] ->
  run_years ty w = (Ok [], w1).
Proof.
  intros Hf Hsome Hno.
  rewrite (fetchAvailableYears_timeline _ _ _ _ _ Hf Hsome), Hno. reflexivity.
Qed.

(** The hyphen filter, the part of C8 the code meets -- once the root page
    is fetched and its timeline region found, every link of the region
    with a hyphen in its href is left out of the year URLs, and every link
    without one is in, as the site origin with the href appended (which is
    not, in general, the URL the href resolves to). *)
Theorem fetchAvailableYears_hyphen_filter
        (ty : string) (w w1 : world) (html : string)
        (timeline_div : Soup.node) (href : string) :
  fetchHTML remote (root_url ty) w = (Ok html, w1) ->
  Soup.find (parse html) "div" (Soup.IdIs "timelineData") = Some timeline_div ->
  href ∈ Soup.hrefs_of (Soup.find_all timeline_div "a" Soup.HrefPresent) ->
  exists yearURLs,
    run_years ty w = (Ok yearURLs, w1) /\
    (PyStr.contains "-" href = true -> BASE_URL +:+ href ∉ yearURLs) /\
    (PyStr.contains "-" href = false -> BASE_URL +:+ href ∈ yearURLs).
Proof.
  intros Hf Hsome Hin. eexists. split.
  - apply (fetchAvailableYears_timeline _ _ _ _ _ Hf Hsome).
  - split; intros Hhy.
    + intros Hmem. apply list_elem_of_In, in_map_iff in Hmem.
      destruct Hmem as (h & Heq & Hh). apply filter_In in Hh.
      destruct Hh as [_ Hh]. apply String.app_inj in Heq. subst h.
      rewrite Hhy in Hh. discriminate.
    + apply list_elem_of_In, in_map_iff. exists href. split; [reflexivity|].
      apply filter_In. split; [now apply list_elem_of_In|].
      now rewrite Hhy.
Qed.

(** *** Relations between the world before and the world after *)

Section Respects.
Context (R : relation world) `{HR : !PreOrder R}.

Lemma respects_ret {A} (a : A) : respects R (ret a).
Proof using HR. intros w. reflexivity. Qed.

Lemma respects_raise {A} e : respects R (@raise A e).
Proof using HR. intros w. reflexivity. Qed.

Lemma respects_bind {A B} (m : M A) (k : A -> M B) :
  respects R m -> (forall a, respects R (k a)) -> respects R (bind m k).
Proof using HR.
  intros Hm Hk w. unfold bind. specialize (Hm w).
  destruct (m w) as [[a|e] w1]; cbn in *; [|exact Hm].
  etransitivity; [exact Hm|apply Hk].
Qed.

Lemma respects_try_except {A} (body handler : M A) handled :
  respects R body -> respects R handler ->
  respects R (try_except body handled handler).
Proof using HR.
  intros Hb Hh w. unfold try_except. specialize (Hb w).
  destruct (body w) as [[a|e] w1]; cbn in *; [exact Hb|].
  destruct (handled e); cbn; [|exact Hb].
  etransitivity; [exact Hb|apply Hh].
Qed.

Lemma respects_for_each {A B} (l : list A) (body : B -> A -> M B) :
  (forall acc x, respects R (body acc x)) ->
  forall acc, respects R (for_each l body acc).
Proof using HR.
  intros Hbody. induction l as [|x l IH]; intros acc; cbn [for_each].
  - apply respects_ret.
  - apply respects_bind; [apply Hbody|exact IH].
Qed.
End Respects.

#[local] Instance only_logs_preorder P : PreOrder (only_logs P).
Proof.
  split.
  - intros w. repeat split. exists []. now rewrite app_nil_r.
  - intros w1 w2 w3 (Hf1 & Hd1 & n1 & Ht1 & HP1) (Hf2 & Hd2 & n2 & Ht2 & HP2).
    repeat split; [congruence..|].
    exists (n1 ++ n2). split; [|now apply Forall_app].
    rewrite Ht2, Ht1. now rewrite app_assoc.
Qed.

Lemma requests_get_bare url : respects (only_logs is_bare_get) (requests_get remote url None).
Proof.
  intros w. unfold requests_get.
  destruct (remote _ url); cbn; repeat split;
    exists [EGet url None]; (split; [reflexivity|]);
    repeat constructor; now exists url.
Qed.

(** [fetchAvailablePages] touches neither files nor directories, and all
    it logs are requests without timeout. *)
Lemma fetchAvailablePages_bare start_url :
  respects (only_logs is_bare_get) (run_pages start_url).
Proof.
  unfold fetchAvailablePages.
  apply respects_bind; [apply _|apply requests_get_bare|]. intros r.
  apply respects_bind; [apply _| |intros; apply respects_ret; apply _].
  apply respects_for_each; [apply _|]. intros acc u.
  apply respects_bind; [apply _|apply requests_get_bare|].
  intros; apply respects_ret; apply _.
Qed.

Lemma new_events_app w w' new :
  trace w' = trace w ++ new -> new_events w w' = new.
Proof. intros H. unfold new_events. rewrite H. apply drop_app_length. Qed.

(** *** [main]: failure of the year enumeration *)

Lemma main_type_years_fail cat ty w e w1 :
  run_years ty w = (Raise e, w1) -> run_type cat ty w = (Raise e, w1).
Proof. intros H. unfold main_type. now apply bind_raise. Qed.

(** C7 -- when the request for a type's root page fails at transport
    level, the type ends in the propagated error: files and directories
    are exactly as before (nothing created, no error file written) and
    the only things done are the one sleep and the one request. *)
Theorem main_type_root_network_error (cat ty : string) (w : world) :
  remote (trace w ++ [ESleep 1; EGet (root_url ty) (Some 5)]) (root_url ty)
    = TransportError ->
  exists w',
    run_type cat ty w = (Raise (ValueError (root_url ty) NetworkError), w') /\
    files w' = files w /\ dirs w' = dirs w /\
    new_events w w' = [ESleep 1; EGet (root_url ty) (Some 5)].
Proof.
  intros H. exists (fetched (root_url ty) w). split; [|repeat split].
  - apply main_type_years_fail, fetchAvailableYears_fetch_fails.
    now apply fetchHTML_transport_error.
  - now apply new_events_app.
Qed.

(** C9 -- when the year enumeration of one type raises, [main] ends at
    once with that exception, in the world the failure left: the types
    and categories listed after it are never reached. *)
Theorem main_aborts_on_year_failure
        (before after : list (string * list string))
        (cat : string) (types_before types_after : list string) (ty : string)
        (w w1 w2 : world) (e : exn) :
  run_main (before ++ [(cat, types_before)]) w = (Ok tt, w1) ->
  run_years ty w1 = (Raise e, w2) ->
  run_main (before ++ (cat, types_before ++ ty :: types_after) :: after) w
    = (Raise e, w2).
Proof.
  unfold main_over. intros Hpre Hfail.
  rewrite for_each_app in Hpre. rewrite for_each_app.
  unfold bind in *.
  destruct (for_each before _ tt w) as [[[]|e0] w0]; [|discriminate].
  cbn [for_each] in *. unfold bind in *.
  rewrite for_each_app. unfold bind.
  destruct (for_each types_before _ tt w0) as [[[]|e1] w0']; [|discriminate].
  cbn [ret] in Hpre. injection Hpre as ->.
  cbn [for_each]. unfold bind.
  now rewrite (main_type_years_fail cat ty _ _ _ Hfail).
Qed.

(** *** [extract_pagination_links] and [fetchAvailablePages] *)

(** The pagination URLs: every link of the region, each once, in the
    order the set happens to give. *)
Lemma extract_pagination_links_spec soup :
  NoDup (extract_pagination_links urljoin set_iter soup) /\
  forall u, u ∈ extract_pagination_links urljoin set_iter soup
            <-> u ∈ nav_links urljoin soup.
Proof using set_iter_perm.
  unfold extract_pagination_links, nav_links.
  destruct (Soup.find soup "div" _) as [nav|].
  - set (resolved := List.map _ _).
    destruct (append_new_spec resolved [] (NoDup_nil_2)) as [Hnd Hmem].
    assert (set_iter (list_to_set (append_new [] resolved))
            ≡ₚ append_new [] resolved) as Hperm.
    { rewrite set_iter_perm. now apply elements_list_to_set. }
    split.
    + now rewrite Hperm.
    + intros u. rewrite Hperm, Hmem, elem_of_nil.
      split; [intros [[]|H]; exact H|intros H; right; exact H].
  - split; [constructor|]. reflexivity.
Qed.

(** The loop over the pagination URLs, when it runs to its end. *)
Lemma pagination_loop_trace (page_urls : list string) acc w acc' w' :
  for_each page_urls
    (fun (all_hrefs : gset string) url =>
       bind (requests_get remote url None)
            (fun page =>
               ret (all_hrefs ∪ list_to_set (extract_table_hrefs (parse (text page))))))
    acc w = (Ok acc', w') ->
  trace w' = trace w ++ List.map (fun u => EGet u None) page_urls.
Proof.
  revert acc w. induction page_urls as [|u l IH]; intros acc w H; cbn in H.
  - injection H as _ <-. now rewrite app_nil_r.
  - unfold bind in H at 1. unfold bind in H at 1.
    unfold requests_get in H at 1.
    destruct (remote _ u) as [|r]; [discriminate|]. cbn [ret] in H.
    apply IH in H. rewrite H. cbn. now rewrite <- app_assoc.
Qed.

(** C5, as the code has it -- a year listing that is read to its end
    requests the starting page once, and then every link of that page's
    pagination region exactly once (repeated links are merged, in no
    fixed order); nothing else is requested.  The starting page is not
    taken out of the pagination links. *)
Theorem fetchAvailablePages_requests
        (start_url : string) (w w' : world) (r : response) (urls : list string) :
  remote (trace w ++ [EGet start_url None]) start_url = Response r ->
  run_pages start_url w = (Ok urls, w') ->
  exists page_urls,
    new_events w w'
      = EGet start_url None :: List.map (fun u => EGet u None) page_urls /\
    NoDup page_urls /\
    forall u, u ∈ page_urls <-> u ∈ nav_links urljoin (parse (text r)).
Proof using set_iter_perm.
  intros Hr Hrun.
  exists (extract_pagination_links urljoin set_iter (parse (text r))).
  split; [|apply extract_pagination_links_spec].
  unfold fetchAvailablePages, bind in Hrun.
  unfold requests_get in Hrun at 1. cbn [log trace] in Hrun.
  rewrite Hr in Hrun. cbn in Hrun.
  destruct (for_each _ _ _ _) as [[acc'|e] w1] eqn:Hloop; [|discriminate].
  injection Hrun as _ <-.
  apply pagination_loop_trace in Hloop. cbn [trace] in Hloop.
  apply new_events_app. rewrite Hloop. unfold log. cbn [trace].
  now rewrite <- app_assoc.
Qed.

(** *** Paths: a document never lands on the error file *)

Lemma last_char_app (a b : string) :
  b <> EmptyString -> PyStr.last_char (a +:+ b) = PyStr.last_char b.
Proof.
  intros Hb. induction a as [|c a IH]; [reflexivity|].
  rewrite <- IH. change (String c a +:+ b) with (String c (a +:+ b)).
  destruct (a +:+ b) eqn:Hab; [|reflexivity].
  destruct a; [cbn in Hab; contradiction|discriminate].
Qed.

Lemma last_char_path_join (a b : string) :
  b <> EmptyString -> PyStr.last_char (Os.path_join a b) = PyStr.last_char b.
Proof.
  intros Hb. unfold Os.path_join.
  destruct (String.prefix "/" b); [reflexivity|].
  destruct (_ || _).
  - now apply last_char_app.
  - rewrite last_char_app; [now apply last_char_app|].
    destruct b; [contradiction|discriminate].
Qed.

Lemma app_nonempty_r (a b : string) : b <> EmptyString -> a +:+ b <> EmptyString.
Proof. intros Hb. destruct a; [exact Hb|discriminate]. Qed.

Lemma doc_file_path_last dir_path year pageURL :
  PyStr.last_char (doc_file_path dir_path year pageURL) = Some "l"%char.
Proof.
  unfold doc_file_path.
  rewrite last_char_path_join by (repeat apply app_nonempty_r; discriminate).
  repeat (rewrite last_char_app by (repeat apply app_nonempty_r; discriminate)).
  reflexivity.
Qed.

Lemma error_file_last cat ty :
  PyStr.last_char (error_file cat ty) = Some "t"%char.
Proof. unfold error_file. now rewrite last_char_path_join. Qed.

Lemma doc_file_path_not_error_file dir_path year pageURL cat ty :
  doc_file_path dir_path year pageURL <> error_file cat ty.
Proof.
  intros H. apply (f_equal PyStr.last_char) in H.
  rewrite doc_file_path_last, error_file_last in H. discriminate.
Qed.

(** *** Quiet steps *)

#[local] Instance quiet_preorder P : PreOrder (quiet P).
Proof.
  split.
  - intros w. exists []. rewrite app_nil_r. repeat split; auto.
  - intros w1 w2 w3 (n1 & Ht1 & HP1 & Hd1 & Hf1) (n2 & Ht2 & HP2 & Hd2 & Hf2).
    exists (n1 ++ n2). split; [now rewrite Ht2, Ht1, app_assoc|].
    split; [now apply Forall_app|]. split; [now transitivity (dirs w2)|].
    intros p Hp. rewrite Hf2, Hf1; [reflexivity| |];
      intros c Hc; apply (Hp c), elem_of_app; auto.
Qed.

Lemma only_logs_quiet (Q P : event -> Prop) w w' :
  (forall e, Q e -> P e) -> only_logs Q w w' -> quiet P w w'.
Proof.
  intros HQP (Hf & Hd & new & Ht & HQ). exists new.
  split; [exact Ht|]. split; [eapply Forall_impl; eauto|].
  split; [now rewrite Hd|]. intros p _. now rewrite Hf.
Qed.

Lemma quiet_fetched P url w :
  P (ESleep 1) -> P (EGet url (Some 5)) -> quiet P w (fetched url w).
Proof.
  intros Hs Hg. exists [ESleep 1; EGet url (Some 5)].
  repeat split; auto.
Qed.

Lemma quiet_written P w new path content :
  Forall P (new ++ [EWrite path content]) ->
  quiet P w {| files := <[path := content]> (files w); dirs := dirs w;
               trace := trace w ++ new ++ [EWrite path content] |}.
Proof.
  intros HP. exists (new ++ [EWrite path content]). repeat split; auto.
  intros p Hp. cbn. apply lookup_insert_ne. intros ->.
  apply (Hp content), elem_of_app. right. constructor.
Qed.

Lemma quiet_makedirs P path w :
  P (EMakedirs path) -> quiet P w (Os.makedirs path w).2.
Proof.
  intros HP. exists [EMakedirs path]. cbn. repeat split; auto.
  apply union_subseteq_l.
Qed.

Lemma quiet_exists_mono P path w w' :
  (forall e, P e -> spares path e) -> quiet P w w' ->
  Os.path_exists_in w path = true -> Os.path_exists_in w' path = true.
Proof.
  intros Hsp (new & _ & HP & Hd & Hf). unfold Os.path_exists_in.
  rewrite Hf.
  - rewrite !orb_true_iff, !bool_decide_eq_true.
    intros [Hfile|Hdir]; [now left|right; now apply Hd].
  - intros c Hc. rewrite Forall_forall in HP.
    now apply (Hsp _ (HP _ Hc) c).
Qed.

(** *** The body of the document loop *)

Lemma verdict_raises url h e : verdict url h = Raise e -> is_ValueError e = true.
Proof.
  unfold verdict. destruct h as [|r]; [now intros [= <-]|].
  destruct (_ || _ || _ || _); [now intros [= <-]|].
  destruct (PyStr.contains INVALID_TEXT _); [now intros [= <-]|discriminate].
Qed.

Lemma main_page_unfold dir_path year errs u w :
  main_page remote dir_path year errs u w =
  let path := doc_file_path dir_path year u in
  if Os.path_exists_in w path then (Ok errs, w)
  else match verdict u (remote (trace (fetched u w)) u) with
       | Ok html =>
           (Ok errs,
            {| files := <[path := html]> (files w); dirs := dirs w;
               trace := trace w ++ [ESleep 1; EGet u (Some 5)] ++ [EWrite path html] |})
       | Raise _ => (Ok (errs ++ [u]), fetched u w)
       end.
Proof.
  unfold main_page, bind at 1, Os.exists_. cbn zeta.
  destruct (Os.path_exists_in w _); [reflexivity|].
  unfold try_except, bind. rewrite fetchHTML_unfold.
  destruct (verdict u _) as [html|e] eqn:Hv.
  - unfold Os.write_file, ret, fetched. cbn [files dirs trace].
    now rewrite <- app_assoc.
  - now rewrite (verdict_raises _ _ _ Hv).
Qed.

Lemma main_page_quiet P dir_path year errs u w :
  (Os.path_exists_in w (doc_file_path dir_path year u) = false ->
   P (ESleep 1) /\ P (EGet u (Some 5)) /\
   forall html, P (EWrite (doc_file_path dir_path year u) html)) ->
  quiet P w (main_page remote dir_path year errs u w).2.
Proof.
  intros HP. rewrite main_page_unfold. cbn zeta.
  destruct (Os.path_exists_in w _); [reflexivity|].
  destruct HP as (Hs & Hg & Hw); [reflexivity|].
  destruct (verdict u _) as [html|e]; cbn [snd].
  - apply quiet_written. repeat constructor; auto.
  - now apply quiet_fetched.
Qed.

(** What the body adds to [errorURLs] is what the log shows as failed. *)
Lemma main_page_failures dir_path year errs u w :
  exists new w',
    main_page remote dir_path year errs u w
      = (Ok (errs ++ failed_fetches remote (trace w) new), w') /\
    trace w' = trace w ++ new.
Proof.
  rewrite main_page_unfold. cbn zeta.
  destruct (Os.path_exists_in w _).
  - exists [], w. cbn. now rewrite !app_nil_r.
  - destruct (verdict u _) as [html|e] eqn:Hv; cbn [fetched trace] in Hv.
    + exists ([ESleep 1; EGet u (Some 5)]
              ++ [EWrite (doc_file_path dir_path year u) html]).
      exists {| files := <[doc_file_path dir_path year u := html]> (files w);
                dirs := dirs w;
                trace := trace w ++ [ESleep 1; EGet u (Some 5)]
                         ++ [EWrite (doc_file_path dir_path year u) html] |}.
      split; [|reflexivity]. cbn [failed_fetches app].
      rewrite <- app_assoc. cbn [app]. rewrite Hv. cbn [app].
      now rewrite app_nil_r.
    + exists [ESleep 1; EGet u (Some 5)], (fetched u w).
      split; [|reflexivity]. cbn [failed_fetches app].
      rewrite <- app_assoc. cbn [app]. now rewrite Hv.
Qed.

(** *** Failed fetches, loop by loop *)

Lemma failed_fetches_app before tr1 tr2 :
  failed_fetches remote before (tr1 ++ tr2)
  = failed_fetches remote before tr1
    ++ failed_fetches remote (before ++ tr1) tr2.
Proof.
  revert before. induction tr1 as [|e tr1 IH]; intros before; cbn [app failed_fetches].
  - now rewrite app_nil_r.
  - rewrite IH, <- !app_assoc. reflexivity.
Qed.


Lemma page_loop_failures dir_path year pageURLs errs w :
  exists new w',
    for_each pageURLs (main_page remote dir_path year) errs w
      = (Ok (errs ++ failed_fetches remote (trace w) new), w') /\
    trace w' = trace w ++ new.
Proof.
  revert errs w. induction pageURLs as [|u l IH]; intros errs w; cbn [for_each].
  - exists [], w. cbn. now rewrite !app_nil_r.
  - destruct (main_page_failures dir_path year errs u w) as (n1 & w1 & Hstep & Ht1).
    destruct (IH (errs ++ failed_fetches remote (trace w) n1) w1)
      as (n2 & w2 & Hrest & Ht2).
    exists (n1 ++ n2), w2. split.
    + rewrite (bind_ok _ _ _ _ _ Hstep), Hrest.
      now rewrite failed_fetches_app, Ht1, app_assoc.
    + now rewrite Ht2, Ht1, app_assoc.
Qed.



(** *** Nothing before the end of a type writes its error file *)

Lemma spares_sleep path secs : spares path (ESleep secs).
Proof. intros c. discriminate. Qed.

Lemma spares_get path url t : spares path (EGet url t).
Proof. intros c. discriminate. Qed.

Lemma spares_makedirs path d : spares path (EMakedirs d).
Proof. intros c. discriminate. Qed.

Lemma spares_write path p content : p <> path -> spares path (EWrite p content).
Proof. intros Hne c [= -> _]. now apply Hne. Qed.

Lemma spares_bare path e : is_bare_get e -> spares path e.
Proof. intros [url ->]. apply spares_get. Qed.

Lemma fetchAvailableYears_world ty w r w1 :
  run_years ty w = (r, w1) -> w1 = fetched (root_url ty) w.
Proof.
  unfold fetchAvailableYears, bind. rewrite fetchHTML_unfold.
  destruct (verdict _ _) as [html|e]; [|now intros [= _ <-]].
  destruct (Soup.find _ _ _); now intros [= _ <-].
Qed.

Lemma main_year_spares cat ty cat' ty' errs yearURL :
  respects (quiet (spares (error_file cat' ty'))) (run_year cat ty errs yearURL).
Proof.
  unfold main_year.
  apply respects_bind; [apply _| |intros pageURLs].
  - intros w. eapply only_logs_quiet; [|apply fetchAvailablePages_bare].
    intros e. apply spares_bare.
  - apply respects_bind; [apply _| |intros _].
    + intros w. apply quiet_makedirs, spares_makedirs.
    + apply respects_for_each; [apply _|]. intros acc u w.
      apply main_page_quiet. intros _.
      split; [apply spares_sleep|]. split; [apply spares_get|].
      intros html. apply spares_write, doc_file_path_not_error_file.
Qed.

Lemma year_loop_spares cat ty cat' ty' yearURLs errs :
  respects (quiet (spares (error_file cat' ty')))
           (for_each yearURLs (run_year cat ty) errs).
Proof.
  apply respects_for_each; [apply _|]. intros acc y. apply main_year_spares.
Qed.

Lemma quiet_spares_untouched path w w' :
  quiet (spares path) w w' ->
  files w' !! path = files w !! path /\
  forall c, EWrite path c ∉ new_events w w'.
Proof.
  intros (new & Ht & HP & _ & Hf). rewrite (new_events_app _ _ _ Ht).
  assert (forall c, EWrite path c ∉ new) as Hno.
  { intros c Hc. rewrite Forall_forall in HP. now apply (HP _ Hc c). }
  split; [now apply Hf|exact Hno].
Qed.

(** *** The end of a type: the error file *)



(** C10 -- a type whose years all ran and left the error list empty ends
    without writing its error file: no write to it is logged, and what was
    there before (a file of an earlier run, or nothing) is still there. *)
Theorem main_type_empty_errors_keeps_error_file
        (cat ty : string) (w w1 w2 : world) (yearURLs : list string) :
  run_years ty w = (Ok yearURLs, w1) ->
  for_each yearURLs (run_year cat ty) [] w1 = (Ok [], w2) ->
  run_type cat ty w = (Ok tt, w2) /\
  files w2 !! error_file cat ty = files w !! error_file cat ty /\
  forall c, EWrite (error_file cat ty) c ∉ new_events w w2.
Proof.
  intros Hyears Hloop. split.
  - unfold main_type. rewrite (bind_ok _ _ _ _ _ Hyears).
    now rewrite (bind_ok _ _ _ _ _ Hloop).
  - apply quiet_spares_untouched.
    pose proof (year_loop_spares cat ty cat ty yearURLs [] w1) as Hq.
    rewrite Hloop in Hq. cbn [snd] in Hq.
    etransitivity; [|exact Hq].
    apply fetchAvailableYears_world in Hyears as ->.
    apply quiet_fetched; [apply spares_sleep|apply spares_get].
Qed.


(** *** Documents already on disk *)

(** The document loop, started where the file of [url] exists: no request
    for [url], no write to its file. *)
Lemma page_loop_skips dir_path year url pageURLs errs w :
  Os.path_exists_in w (doc_file_path dir_path year url) = true ->
  quiet (skips (doc_file_path dir_path year url) url) w
        (for_each pageURLs (main_page remote dir_path year) errs w).2.
Proof.
  set (path := doc_file_path dir_path year url).
  revert errs w. induction pageURLs as [|u l IH]; intros errs w Hex; cbn [for_each].
  - reflexivity.
  - assert (quiet (skips path url) w (main_page remote dir_path year errs u w).2) as Hstep.
    { apply main_page_quiet. intros Hfresh.
      assert (doc_file_path dir_path year u <> path) as Hpath
        by (intros Heq; rewrite Heq, Hex in Hfresh; discriminate).
      assert (u <> url) as Hu by (intros ->; now apply Hpath).
      repeat split; try (intros c; discriminate); try discriminate.
      - now intros [= ->].
      - now apply spares_write. }
    unfold bind.
    destruct (main_page remote dir_path year errs u w) as [[errs1|e] w1]; cbn [snd] in *;
      [|exact Hstep].
    etransitivity; [exact Hstep|]. apply IH.
    eapply quiet_exists_mono; [|exact Hstep|exact Hex]. now intros e [Hsp _].
Qed.


#[local] Instance keeps_existing_preorder : PreOrder keeps_existing.
Proof.
  split.
  - intros w. exists []. rewrite app_nil_r. repeat split; auto.
    intros c Hc. inversion Hc.
  - intros w1 w2 w3 (n1 & Ht1 & Hd1 & Hk1) (n2 & Ht2 & Hd2 & Hk2).
    exists (n1 ++ n2). split; [now rewrite Ht2, Ht1, app_assoc|].
    split; [now transitivity (dirs w2)|]. intros p Hex Hne.
    destruct (Hk1 p Hex Hne) as [Hf1 Hw1].
    assert (Os.path_exists_in w2 p = true) as Hex2.
    { unfold Os.path_exists_in in *. rewrite Hf1.
      rewrite !orb_true_iff, !bool_decide_eq_true in *.
      destruct Hex as [?|?]; [now left|right; now apply Hd1]. }
    destruct (Hk2 p Hex2 Hne) as [Hf2 Hw2].
    split; [congruence|]. intros c Hc. apply elem_of_app in Hc as [Hc|Hc].
    + now apply (Hw1 c).
    + now apply (Hw2 c).
Qed.


Lemma keeps_fetched url w : keeps_existing w (fetched url w).
Proof.
  exists [ESleep 1; EGet url (Some 5)]. repeat split; auto.
  intros c Hc. repeat (apply elem_of_cons in Hc as [Hc|Hc]; [discriminate|]).
  inversion Hc.
Qed.

Lemma keeps_written w new path content :
  (forall p c, EWrite p c ∈ new -> False) ->
  Os.path_exists_in w path = false \/ is_error_file path ->
  keeps_existing w
    {| files := <[path := content]> (files w); dirs := dirs w;
       trace := trace w ++ new ++ [EWrite path content] |}.
Proof.
  intros Hnew Hpath. exists (new ++ [EWrite path content]).
  repeat split; auto.
  - cbn. apply lookup_insert_ne. intros ->.
    destruct Hpath as [Hfresh|Herr]; [congruence|contradiction].
  - intros c Hc. apply elem_of_app in Hc as [Hc|Hc]; [now apply Hnew in Hc|].
    apply list_elem_of_singleton in Hc. injection Hc as -> _.
    destruct Hpath as [Hfresh|Herr]; [congruence|contradiction].
Qed.

Lemma main_page_keeps dir_path year errs u :
  respects keeps_existing (main_page remote dir_path year errs u).
Proof.
  intros w. rewrite main_page_unfold. cbn zeta.
  destruct (Os.path_exists_in w _) eqn:Hex; [reflexivity|].
  destruct (verdict u _) as [html|e]; cbn [snd]; [|apply keeps_fetched].
  apply keeps_written; [|now left].
  intros p c Hc. repeat (apply elem_of_cons in Hc as [Hc|Hc]; [discriminate|]).
  inversion Hc.
Qed.



Lemma doc_file_path_no_error_file dir_path year url :
  ~ is_error_file (doc_file_path dir_path year url).
Proof. intros (cat & ty & H). now apply doc_file_path_not_error_file in H. Qed.


(** *** Further facts: [fetchHTML] *)

Lemma fetchHTML_result url w :
  (fetchHTML remote url w).1
  = verdict url (remote (trace w ++ [ESleep 1; EGet url (Some 5)]) url).
Proof. now rewrite fetchHTML_unfold. Qed.

(** X1 -- [fetchHTML] ends in the "invalid text" error exactly when the
    answer has status 200, carries neither the "unavailable" nor the
    "could not be found" text, and carries the "not recognised" text: the
    unavailable check comes first and wins. *)
Theorem fetchHTML_invalid_request_iff (url : string) (w : world) (r : response) :
  remote (trace w ++ [ESleep 1; EGet url (Some 5)]) url = Response r ->
  ((fetchHTML remote url w).1 = Raise (ValueError url InvalidRequest) <->
   status_code r = 200 /\
   PyStr.contains UNAVAILABLE_TEXT (text r) = false /\
   PyStr.contains COULDNT_FIND_TEXT (text r) = false /\
   PyStr.contains INVALID_TEXT (text r) = true).
Proof.
  intros Hr. rewrite fetchHTML_result, Hr. unfold verdict.
  destruct (PyStr.contains UNAVAILABLE_TEXT (text r)) eqn:Hu;
    destruct (PyStr.contains COULDNT_FIND_TEXT (text r)) eqn:Hc;
    destruct (PyStr.contains INVALID_TEXT (text r)) eqn:Hi;
    destruct (Z.eqb_spec (status_code r) 200) as [H200|H200];
    destruct (Z.eqb_spec (status_code r) 500) as [H500|H500];
    cbn; split; try discriminate; try (intros (? & ? & ? & ?); congruence);
    try (intros _; repeat split; congruence).
Qed.

(** X2 -- [fetchHTML] returns a body exactly when the site answered with
    status 200 and a text free of the three marker texts; what it returns
    is that text, unchanged. *)
Theorem fetchHTML_returns_body_iff (url : string) (w : world) (body : string) :
  (fetchHTML remote url w).1 = Ok body <->
  exists r,
    remote (trace w ++ [ESleep 1; EGet url (Some 5)]) url = Response r /\
    status_code r = 200 /\ clean_body (text r) /\ body = text r.
Proof.
  rewrite fetchHTML_result. unfold verdict, clean_body. split.
  - destruct (remote _ url) as [|r]; [discriminate|].
    destruct (PyStr.contains UNAVAILABLE_TEXT (text r)) eqn:Hu;
      destruct (PyStr.contains COULDNT_FIND_TEXT (text r)) eqn:Hc;
      destruct (PyStr.contains INVALID_TEXT (text r)) eqn:Hi;
      destruct (Z.eqb_spec (status_code r) 200) as [H200|H200];
      destruct (Z.eqb_spec (status_code r) 500) as [H500|H500];
      cbn; try discriminate.
    intros [= <-]. exists r. repeat split; auto.
  - intros (r & -> & H200 & (Hu & Hc & Hi) & ->).
    rewrite Hu, Hc, Hi, H200. reflexivity.
Qed.

(** X3 -- whatever the site does, [fetchHTML] either returns a body or
    raises a [ValueError] naming its URL: no [RequestException] leaves it.
    And all it does is one sleep of 1 and one request with timeout 5;
    files and directories are as before. *)
Theorem fetchHTML_raises_only_ValueError (url : string) (w : world) :
  ((exists body, (fetchHTML remote url w).1 = Ok body) \/
   (exists why, (fetchHTML remote url w).1 = Raise (ValueError url why))) /\
  files (fetchHTML remote url w).2 = files w /\
  dirs (fetchHTML remote url w).2 = dirs w /\
  new_events w (fetchHTML remote url w).2 = [ESleep 1; EGet url (Some 5)].
Proof.
  split.
  - rewrite fetchHTML_result. unfold verdict.
    destruct (remote _ url) as [|r]; [right; now exists NetworkError|].
    destruct (_ || _ || _ || _); [right; now exists SoftFailure|].
    destruct (PyStr.contains INVALID_TEXT _);
      [right; now exists InvalidRequest|left; now eexists].
  - rewrite fetchHTML_unfold. cbn [snd fetched files dirs].
    repeat split. now apply new_events_app.
Qed.

(** X4 -- [fetchHTML] ends in the "something else" error exactly when the
    request itself failed (no response at all). *)
Theorem fetchHTML_network_error_iff (url : string) (w : world) :
  (fetchHTML remote url w).1 = Raise (ValueError url NetworkError) <->
  remote (trace w ++ [ESleep 1; EGet url (Some 5)]) url = TransportError.
Proof.
  rewrite fetchHTML_result. unfold verdict.
  destruct (remote _ url) as [|r]; [split; reflexivity|].
  destruct (_ || _ || _ || _); [split; discriminate|].
  destruct (PyStr.contains INVALID_TEXT _); split; discriminate.
Qed.

(** *** Further facts: [fetchAvailablePages] *)

Lemma bind_ext {A B} (m : M A) (k1 k2 : A -> M B) w :
  (forall a w', k1 a w' = k2 a w') -> bind m k1 w = bind m k2 w.
Proof. intros H. unfold bind. destruct (m w) as [[a|e] w']; [apply H|reflexivity]. Qed.

Lemma bind_ext_l {A B} (m1 m2 : M A) (k : A -> M B) w :
  m1 w = m2 w -> bind m1 k w = bind m2 k w.
Proof. intros H. unfold bind. now rewrite H. Qed.

Lemma for_each_ext {A B} (l : list A) (body1 body2 : B -> A -> M B) acc w :
  (forall b x w', body1 b x w' = body2 b x w') ->
  for_each l body1 acc w = for_each l body2 acc w.
Proof.
  intros H. revert acc w. induction l as [|x l IH]; intros acc w; [reflexivity|].
  cbn [for_each]. unfold bind. rewrite H.
  destruct (body2 acc x w) as [[b|e] w']; [apply IH|reflexivity].
Qed.

(** What is done with a response depends on its text only. *)
Lemma requests_get_with_status {B} (code : Z) url timeout (k : string -> M B) w :
  bind (requests_get (with_status code remote) url timeout) (fun r => k (text r)) w
  = bind (requests_get remote url timeout) (fun r => k (text r)) w.
Proof.
  unfold bind, requests_get, with_status.
  destruct (remote _ url) as [|r]; reflexivity.
Qed.

(** X5 -- [fetchAvailablePages] never looks at a status code: with every
    response of the site re-labelled with any status whatsoever, it
    returns the same result and leaves the same world. *)
Theorem fetchAvailablePages_ignores_status (code : Z) (start_url : string) (w : world) :
  fetchAvailablePages (with_status code remote) parse urljoin set_iter start_url w
  = run_pages start_url w.
Proof.
  unfold fetchAvailablePages.
  rewrite (requests_get_with_status code start_url None
             (fun body =>
                let soup := parse body in
                let all_hrefs : gset string := list_to_set (extract_table_hrefs soup) in
                let page_urls := extract_pagination_links urljoin set_iter soup in
                bind (for_each page_urls
                        (fun (all_hrefs : gset string) url =>
                           bind (requests_get (with_status code remote) url None)
                                (fun page =>
                                   ret (all_hrefs
                                          ∪ list_to_set (extract_table_hrefs (parse (text page))))))
                        all_hrefs)
                     (fun all_hrefs =>
                        ret (List.map (fun href => BASE_URL +:+ href +:+ "/data.html")
                                      (sorted (set_iter all_hrefs)))))).
  apply bind_ext. intros response w0. cbn zeta.
  apply bind_ext_l, for_each_ext. intros acc u w1.
  apply (requests_get_with_status code u None
           (fun body => ret (acc ∪ list_to_set (extract_table_hrefs (parse body))))).
Qed.

(** X6 -- whatever the site answers, [fetchAvailablePages] leaves files and
    directories alone, never sleeps, and makes only requests without
    timeout. *)
Theorem fetchAvailablePages_only_requests (start_url : string) (w : world) :
  files (run_pages start_url w).2 = files w /\
  dirs (run_pages start_url w).2 = dirs w /\
  Forall (fun e => exists url, e = EGet url None)
         (new_events w (run_pages start_url w).2).
Proof.
  destruct (fetchAvailablePages_bare start_url w) as (Hf & Hd & new & Ht & Hall).
  split; [exact Hf|]. split; [exact Hd|].
  now rewrite (new_events_app _ _ _ Ht).
Qed.

(** X7 -- the document URLs [fetchAvailablePages] returns are the hrefs it
    collected, each once and in ascending order, every one wrapped as
    [BASE_URL + href + "/data.html"]; so no document URL comes twice. *)
Theorem fetchAvailablePages_urls_sorted_distinct
        (start_url : string) (w w' : world) (urls : list string) :
  run_pages start_url w = (Ok urls, w') ->
  exists hrefs,
    urls = List.map (fun href => BASE_URL +:+ href +:+ "/data.html") hrefs /\
    NoDup hrefs /\
    Sorted (fun s t => String.leb s t = true) hrefs /\
    NoDup urls.
Proof using set_iter_perm.
  unfold fetchAvailablePages. intros Hrun. unfold bind at 1 in Hrun.
  destruct (requests_get remote start_url None w) as [[r|e] w1]; [|discriminate].
  unfold bind at 1 in Hrun.
  destruct (for_each _ _ _ w1) as [[all_hrefs|e] w2]; [|discriminate].
  injection Hrun as <- _.
  assert (NoDup (sorted (set_iter all_hrefs))) as Hnd.
  { rewrite sorted_perm, set_iter_perm. apply NoDup_elements. }
  eexists. split; [reflexivity|]. split; [exact Hnd|].
  split; [apply sorted_Sorted|].
  apply NoDup_map_inj; [apply data_url_inj|exact Hnd].
Qed.

Lemma pagination_loop_members (pages : string -> http_result)
      (page_urls : list string) (acc acc' : gset string) w w' :
  (forall tr url, remote tr url = pages url) ->
  for_each page_urls
    (fun (all_hrefs : gset string) url =>
       bind (requests_get remote url None)
            (fun page =>
               ret (all_hrefs ∪ list_to_set (extract_table_hrefs (parse (text page))))))
    acc w = (Ok acc', w') ->
  forall href,
    href ∈ acc' <->
    href ∈ acc \/
    exists u r', u ∈ page_urls /\ pages u = Response r' /\
                 href ∈ extract_table_hrefs (parse (text r')).
Proof.
  intros Hstatic. revert acc w.
  induction page_urls as [|u l IH]; intros acc w Hrun href; cbn [for_each] in Hrun.
  - injection Hrun as <- _. split; [now left|].
    intros [H|(u & r' & Hu & _)]; [exact H|]. now apply elem_of_nil in Hu.
  - unfold bind at 1 in Hrun. unfold bind at 1 in Hrun.
    unfold requests_get in Hrun at 1. rewrite Hstatic in Hrun.
    destruct (pages u) as [|r1] eqn:Hpu; [discriminate|]. cbn [ret] in Hrun.
    rewrite (IH _ _ Hrun href), elem_of_union, elem_of_list_to_set. split.
    + intros [[H|H]|(u' & r' & Hu' & Hp & H)].
      * now left.
      * right. exists u, r1. split; [constructor|]. now split.
      * right. exists u', r'. split; [now constructor|]. now split.
    + intros [H|(u' & r' & Hu' & Hp & H)]; [now left; left|].
      apply elem_of_cons in Hu' as [->|Hu'].
      * left; right. rewrite Hpu in Hp. now injection Hp as ->.
      * right. exists u', r'. now repeat split.
Qed.

(** X8 -- on a site whose pages do not change during the run, a document
    URL is returned for an href exactly when the href stands in a table
    cell of the content region of the starting page or of a page its
    pagination region links to. *)
Theorem fetchAvailablePages_urls_members
        (pages : string -> http_result) (start_url : string) (w w' : world)
        (r : response) (urls : list string) :
  (forall tr url, remote tr url = pages url) ->
  pages start_url = Response r ->
  run_pages start_url w = (Ok urls, w') ->
  forall href,
    BASE_URL +:+ href +:+ "/data.html" ∈ urls <->
    href ∈ extract_table_hrefs (parse (text r)) \/
    exists u r', u ∈ nav_links urljoin (parse (text r)) /\
                 pages u = Response r' /\
                 href ∈ extract_table_hrefs (parse (text r')).
Proof using set_iter_perm.
  intros Hstatic Hstart Hrun href. unfold fetchAvailablePages in Hrun.
  unfold bind at 1 in Hrun. unfold requests_get in Hrun at 1.
  rewrite Hstatic, Hstart in Hrun. unfold bind at 1 in Hrun.
  destruct (for_each _ _ _ _) as [[all_hrefs|e] w2] eqn:Hloop; [|discriminate].
  injection Hrun as <- _.
  pose proof (pagination_loop_members pages _ _ _ _ _ Hstatic Hloop href) as Hmem.
  rewrite elem_of_list_to_set in Hmem.
  assert (BASE_URL +:+ href +:+ "/data.html"
            ∈ List.map (fun href => BASE_URL +:+ href +:+ "/data.html")
                (sorted (set_iter all_hrefs))
          <-> href ∈ all_hrefs) as ->.
  { assert (forall h, h ∈ sorted (set_iter all_hrefs) <-> h ∈ all_hrefs) as Hs.
    { intros h. rewrite sorted_perm, set_iter_perm. apply elem_of_elements. }
    split.
    - intros Hin. apply list_elem_of_In, in_map_iff in Hin as (h & Heq & Hin).
      apply data_url_inj in Heq as ->. now apply Hs, list_elem_of_In.
    - intros Hin. apply list_elem_of_In, in_map_iff. exists href.
      split; [reflexivity|now apply list_elem_of_In, Hs]. }
  rewrite Hmem. split.
  - intros [H|(u & r' & Hu & Hp & H)]; [now left|]. right. exists u, r'.
    split; [now apply extract_pagination_links_spec|]. now split.
  - intros [H|(u & r' & Hu & Hp & H)]; [now left|]. right. exists u, r'.
    split; [now apply extract_pagination_links_spec|]. now split.
Qed.

(** *** Further facts: the loops of [main] *)

Lemma keeps_exists_mono path w w' :
  keeps_existing w w' -> ~ is_error_file path ->
  Os.path_exists_in w path = true -> Os.path_exists_in w' path = true.
Proof.
  intros (new & _ & Hd & Hk) Hne Hex. destruct (Hk path Hex Hne) as [Hf _].
  unfold Os.path_exists_in in *. rewrite Hf.
  rewrite !orb_true_iff, !bool_decide_eq_true in *.
  destruct Hex as [?|?]; [now left|right; now apply Hd].
Qed.

Lemma page_loop_exists_mono dir_path year pageURLs errs w u :
  Os.path_exists_in w (doc_file_path dir_path year u) = true ->
  Os.path_exists_in (for_each pageURLs (main_page remote dir_path year) errs w).2
                    (doc_file_path dir_path year u) = true.
Proof.
  apply keeps_exists_mono; [|apply doc_file_path_no_error_file].
  apply (respects_for_each keeps_existing); intros; apply main_page_keeps.
Qed.

(** X11 -- two document URLs with the same naming segments share one
    file: once the first is fetched and stored, the second is skipped,
    neither requested nor reported. *)
Theorem same_segments_second_skipped
        (dir_path year u1 u2 html : string) (errs : list string) (w : world) :
  name_segments u1 = name_segments u2 ->
  Os.path_exists_in w (doc_file_path dir_path year u1) = false ->
  (fetchHTML remote u1 w).1 = Ok html ->
  for_each [u1; u2] (main_page remote dir_path year) errs w
  = (Ok errs,
     {| files := <[doc_file_path dir_path year u1 := html]> (files w);
        dirs := dirs w;
        trace := trace w ++ [ESleep 1; EGet u1 (Some 5);
                             EWrite (doc_file_path dir_path year u1) html] |}).
Proof.
  intros Hseg Hfresh Hfetch. rewrite fetchHTML_result in Hfetch.
  assert (doc_file_path dir_path year u2 = doc_file_path dir_path year u1) as Hpath.
  { unfold doc_file_path. fold (name_segments u1) (name_segments u2).
    now rewrite Hseg. }
  cbn [for_each]. unfold bind at 1. rewrite main_page_unfold. cbn zeta.
  rewrite Hfresh. cbn [fetched trace]. rewrite Hfetch.
  unfold bind. rewrite main_page_unfold. cbn zeta. rewrite Hpath.
  unfold Os.path_exists_in at 1. cbn [files]. rewrite lookup_insert_eq.
  reflexivity.
Qed.

(** The outcome of the document loop: it ends normally, and each URL is
    then stored or reported. *)
Lemma page_loop_outcome
        (dir_path year : string) (pageURLs errs : list string) (w : world) :
  exists added w',
    for_each pageURLs (main_page remote dir_path year) errs w
      = (Ok (errs ++ added), w') /\
    added `sublist_of` pageURLs /\
    forall u, u ∈ pageURLs ->
              Os.path_exists_in w' (doc_file_path dir_path year u) = true \/ u ∈ added.
Proof.
  revert errs w. induction pageURLs as [|u l IH]; intros errs w.
  - exists [], w. cbn. rewrite app_nil_r. repeat split; [constructor|].
    intros u Hu. now apply elem_of_nil in Hu.
  - cbn [for_each]. unfold bind. rewrite main_page_unfold. cbn zeta.
    destruct (Os.path_exists_in w (doc_file_path dir_path year u)) eqn:Hex;
      [|destruct (verdict u _) as [html|e]].
    + destruct (IH errs w) as (added & w' & Hrun & Hsub & Hall).
      exists added, w'. split; [exact Hrun|]. split; [now apply sublist_cons|].
      intros v Hv. apply elem_of_cons in Hv as [->|Hv]; [|now apply Hall].
      left. pose proof (page_loop_exists_mono dir_path year l errs w u Hex) as Hm.
      now rewrite Hrun in Hm.
    + match goal with |- context [for_each l _ errs ?w1] =>
        destruct (IH errs w1) as (added & w' & Hrun & Hsub & Hall);
        pose proof (page_loop_exists_mono dir_path year l errs w1 u) as Hm
      end.
      exists added, w'. split; [exact Hrun|]. split; [now apply sublist_cons|].
      intros v Hv. apply elem_of_cons in Hv as [->|Hv]; [|now apply Hall].
      left. rewrite Hrun in Hm. apply Hm.
      unfold Os.path_exists_in. cbn [files]. now rewrite lookup_insert_eq.
    + destruct (IH (errs ++ [u]) (fetched u w)) as (added & w' & Hrun & Hsub & Hall).
      exists (u :: added), w'. split; [now rewrite Hrun, <- app_assoc|].
      split; [now apply sublist_skip|].
      intros v Hv. apply elem_of_cons in Hv as [->|Hv]; [right; constructor|].
      destruct (Hall v Hv) as [H|H]; [now left|right; now constructor].
Qed.


(** *** Further facts: years and types *)





(** X14 -- a type that ends in an exception has not written its error
    file: no write to it is logged and it holds what it held, so the
    failures collected up to the exception are not reported. *)
Theorem main_type_aborted_keeps_error_file
        (cat ty : string) (w w' : world) (e : exn) :
  run_type cat ty w = (Raise e, w') ->
  files w' !! error_file cat ty = files w !! error_file cat ty /\
  forall c, EWrite (error_file cat ty) c ∉ new_events w w'.
Proof.
  unfold main_type. intros H. apply quiet_spares_untouched.
  unfold bind at 1 in H.
  destruct (run_years ty w) as [[yearURLs|e0] w1] eqn:Hyears.
  - apply fetchAvailableYears_world in Hyears as ->.
    pose proof (year_loop_spares cat ty cat ty yearURLs [] (fetched (root_url ty) w)) as Hq.
    unfold bind at 1 in H.
    destruct (for_each yearURLs _ [] _) as [[errs|e1] w2]; cbn [snd] in Hq.
    + destruct errs; discriminate.
    + injection H as _ <-. etransitivity; [|exact Hq].
      apply quiet_fetched; [apply spares_sleep|apply spares_get].
  - injection H as _ <-. apply fetchAvailableYears_world in Hyears as ->.
    apply quiet_fetched; [apply spares_sleep|apply spares_get].
Qed.

(** X15 -- a year whose listing page cannot be reached ends in
    [RequestException], which nothing in [main] catches: the one request
    is all that was done, the type directory is not created and no
    document is touched. *)
Theorem main_year_listing_unreachable
        (cat ty yearURL : string) (errs : list string) (w : world) :
  remote (trace w ++ [EGet yearURL None]) yearURL = TransportError ->
  exists w',
    run_year cat ty errs yearURL w = (Raise (RequestException yearURL), w') /\
    files w' = files w /\ dirs w' = dirs w /\
    new_events w w' = [EGet yearURL None].
Proof.
  intros Hr. exists (log (EGet yearURL None) w). split; [|repeat split].
  - unfold main_year, bind at 1, fetchAvailablePages, bind at 1, requests_get at 1.
    cbn [log trace]. now rewrite Hr.
  - now apply new_events_app.
Qed.


Lemma verdict_ok_clean url h html : verdict url h = Ok html -> clean_body html.
Proof.
  unfold verdict, clean_body. destruct h as [|r]; [discriminate|].
  destruct (PyStr.contains UNAVAILABLE_TEXT (text r)) eqn:Hu; [discriminate|].
  destruct (PyStr.contains COULDNT_FIND_TEXT (text r)) eqn:Hc;
    [now rewrite orb_true_r|].
  destruct (_ || _ || _ || _); [discriminate|].
  destruct (PyStr.contains INVALID_TEXT (text r)) eqn:Hi; [discriminate|].
  now intros [= <-].
Qed.

Lemma main_page_writes_clean dir_path year errs u :
  respects (quiet writes_clean) (main_page remote dir_path year errs u).
Proof.
  intros w. rewrite main_page_unfold. cbn zeta.
  destruct (Os.path_exists_in w _); [reflexivity|].
  destruct (verdict u _) as [html|e] eqn:Hv; cbn [snd].
  - apply quiet_written.
    apply Forall_cons; split; [intros p c; discriminate|].
    apply Forall_cons; split; [intros p c; discriminate|].
    apply Forall_cons; split; [|apply Forall_nil_2].
    intros p c [= _ <-]. now apply verdict_ok_clean in Hv.
  - apply quiet_fetched; intros p c; discriminate.
Qed.

(** X17 -- what the processing of a year writes to disk is clean: every
    body stored is free of the "unavailable", "could not be found" and
    "not recognised" texts, so no error page of the site is ever stored
    as a document. *)
Theorem main_year_stores_clean_bodies
        (cat ty yearURL : string) (errs : list string) (w : world)
        (path content : string) :
  EWrite path content ∈ new_events w (run_year cat ty errs yearURL w).2 ->
  clean_body content.
Proof.
  assert (respects (quiet writes_clean) (run_year cat ty errs yearURL)) as Hq.
  { unfold main_year.
    apply respects_bind; [apply _| |intros pageURLs].
    - intros w0. eapply only_logs_quiet; [|apply fetchAvailablePages_bare].
      intros e [u ->] p c. discriminate.
    - apply respects_bind; [apply _| |intros _].
      + intros w0. apply quiet_makedirs. intros p c. discriminate.
      + apply respects_for_each; [apply _|]. intros acc u.
        apply main_page_writes_clean. }
  destruct (Hq w) as (new & Ht & Hall & _). rewrite (new_events_app _ _ _ Ht).
  intros Hin. rewrite Forall_forall in Hall. now apply (Hall _ Hin path content).
Qed.

Lemma page_loop_dirs dir_path year pageURLs errs w :
  dirs w ⊆ dirs (for_each pageURLs (main_page remote dir_path year) errs w).2.
Proof.
  assert (respects (quiet (fun _ => True))
                   (for_each pageURLs (main_page remote dir_path year) errs)) as Hq.
  { apply respects_for_each; [apply _|]. intros acc u w0.
    apply main_page_quiet. now intros _. }
  now destruct (Hq w) as (new & _ & _ & Hd & _).
Qed.

(** X18 -- a year that is processed to its end leaves the type directory
    in place, and [os.makedirs] comes right after the listing requests:
    before it nothing but requests without timeout is logged, so no file
    is written before its directory is made. *)
Theorem main_year_creates_type_dir
        (cat ty yearURL : string) (errs errs' : list string) (w w' : world) :
  run_year cat ty errs yearURL w = (Ok errs', w') ->
  type_dir cat ty ∈ dirs w' /\
  exists gets rest,
    new_events w w' = gets ++ EMakedirs (type_dir cat ty) :: rest /\
    Forall (fun e => exists url, e = EGet url None) gets.
Proof.
  unfold main_year. intros Hrun.
  pose proof (fetchAvailablePages_bare yearURL w) as (_ & _ & gets & Ht1 & Hbare).
  unfold bind at 1 in Hrun.
  destruct (run_pages yearURL w) as [[pageURLs|e] w1]; [|discriminate].
  cbn [snd] in Ht1. unfold bind at 1 in Hrun. cbn [Os.makedirs] in Hrun.
  match type of Hrun with for_each _ (main_page _ ?d ?y) _ ?w2 = _ =>
    destruct (page_loop_failures d y pageURLs errs w2) as (rest & w3 & Hloop & Ht3);
    pose proof (page_loop_dirs d y pageURLs errs w2) as Hdirs
  end.
  rewrite Hloop in Hrun, Hdirs. injection Hrun as _ <-. cbn [snd dirs trace] in *.
  split.
  - apply Hdirs, elem_of_union_r, elem_of_list_to_set, ancestors_self,
      type_dir_nonempty.
  - exists gets, rest. split; [|exact Hbare].
    apply new_events_app. rewrite Ht3, Ht1, <- !app_assoc. reflexivity.
Qed.

(** X19 -- a type for which no year URL is found ends normally having
    made one request (its root page): no directory is created, no file
    written, no error file. *)
Theorem main_type_without_years (cat ty : string) (w w1 : world) :
  run_years ty w = (Ok [], w1) ->
  run_type cat ty w = (Ok tt, w1) /\
  files w1 = files w /\ dirs w1 = dirs w /\
  new_events w w1 = [ESleep 1; EGet (root_url ty) (Some 5)].
Proof.
  intros Hyears. split.
  - unfold main_type. now rewrite (bind_ok _ _ _ _ _ Hyears).
  - apply fetchAvailableYears_world in Hyears as ->. repeat split.
    now apply new_events_app.
Qed.

(** X20 -- any exception of a type ends the whole run there, a listing
    page that cannot be reached included: once the types before have
    completed and one type raises, [main] returns that exception in the
    world the type left, whatever follows in the table. *)
Theorem main_aborts_on_type_failure
        (before after : list (string * list string))
        (cat : string) (types_before types_after : list string) (ty : string)
        (w w1 w2 : world) (e : exn) :
  run_main (before ++ [(cat, types_before)]) w = (Ok tt, w1) ->
  run_type cat ty w1 = (Raise e, w2) ->
  run_main (before ++ (cat, types_before ++ ty :: types_after) :: after) w
    = (Raise e, w2).
Proof.
  unfold main_over. intros Hpre Hfail.
  rewrite for_each_app in Hpre. rewrite for_each_app.
  unfold bind in *.
  destruct (for_each before _ tt w) as [[[]|e0] w0]; [|discriminate].
  cbn [for_each] in *. unfold bind in *.
  rewrite for_each_app. unfold bind.
  destruct (for_each types_before _ tt w0) as [[[]|e1] w0']; [|discriminate].
  cbn [ret] in Hpre. injection Hpre as ->.
  cbn [for_each]. unfold bind. now rewrite Hfail.
Qed.

(** *** Further facts: a second pass over a year *)

(** On a site whose pages do not change, the listing read is the same
    from any world. *)
Lemma bind_result_congr {A B} (m1 m2 : M A) (k : A -> M B) w1 w2 :
  (m1 w1).1 = (m2 w2).1 ->
  (forall a wa wb, (k a wa).1 = (k a wb).1) ->
  (bind m1 k w1).1 = (bind m2 k w2).1.
Proof.
  intros Hm Hk. unfold bind.
  destruct (m1 w1) as [[a1|e1] wa], (m2 w2) as [[a2|e2] wb]; cbn [fst] in Hm;
    try discriminate; injection Hm as <-; [apply Hk|reflexivity].
Qed.

Lemma requests_get_static (pages : string -> http_result) url timeout w w0 :
  (forall tr u, remote tr u = pages u) ->
  (requests_get remote url timeout w).1 = (requests_get remote url timeout w0).1.
Proof.
  intros Hstatic. unfold requests_get. rewrite !Hstatic.
  now destruct (pages url).
Qed.

Lemma fetchAvailablePages_static (pages : string -> http_result) start_url w w0 :
  (forall tr url, remote tr url = pages url) ->
  (run_pages start_url w).1 = (run_pages start_url w0).1.
Proof.
  intros Hstatic. unfold fetchAvailablePages.
  apply bind_result_congr; [now apply (requests_get_static pages)|].
  intros response wa wb. cbn zeta.
  apply bind_result_congr; [|reflexivity].
  generalize (list_to_set (extract_table_hrefs (parse (text response))) : gset string).
  revert wa wb.
  induction (extract_pagination_links urljoin set_iter (parse (text response)))
    as [|u l IH]; intros wa wb acc; [reflexivity|].
  cbn [for_each]. apply bind_result_congr; [|intros a wc wd; apply IH].
  apply bind_result_congr; [now apply (requests_get_static pages)|reflexivity].
Qed.

(** Every document request of the loop is for a URL of the year whose
    file was missing when the loop started. *)
Lemma page_loop_requests dir_path year pageURLs errs w u :
  EGet u (Some 5)
    ∈ new_events w (for_each pageURLs (main_page remote dir_path year) errs w).2 ->
  u ∈ pageURLs /\ Os.path_exists_in w (doc_file_path dir_path year u) = false.
Proof.
  intros Hin. split.
  - assert (forall l, (forall x, x ∈ l -> x ∈ pageURLs) ->
              forall errs0 w0,
                quiet (fun e => forall v, e = EGet v (Some 5) -> v ∈ pageURLs) w0
                      (for_each l (main_page remote dir_path year) errs0 w0).2) as Hq.
    { induction l as [|x l IH]; intros Hsub errs0 w0; [reflexivity|].
      cbn [for_each]. apply respects_bind; [apply _| |].
      - intros w1. apply main_page_quiet. intros _.
        split; [discriminate|]. split; [|discriminate].
        intros v [= <-]. apply Hsub. constructor.
      - intros errs1 w1. apply IH. intros y Hy. apply Hsub. now constructor. }
    destruct (Hq pageURLs (fun x H => H) errs w) as (new & Ht & Hall & _).
    rewrite (new_events_app _ _ _ Ht) in Hin. rewrite Forall_forall in Hall.
    now apply (Hall _ Hin u).
  - destruct (Os.path_exists_in w (doc_file_path dir_path year u)) eqn:Hex;
      [|reflexivity].
    destruct (page_loop_skips dir_path year u pageURLs errs w Hex)
      as (new & Ht & Hall & _).
    rewrite (new_events_app _ _ _ Ht) in Hin. rewrite Forall_forall in Hall.
    now destruct (Hall _ Hin) as [_ Hne].
Qed.

(** X21 -- resuming: on a site whose pages do not change, after a year
    has been processed to its end, processing it again requests only
    documents that the first pass reported as failed; what the first pass
    stored or found on disk is not requested again. *)
Theorem main_year_second_pass_retries_only_failures
        (pages : string -> http_result)
        (cat ty yearURL : string) (errs errs1 errs2 : list string)
        (w w1 : world) (u : string) :
  (forall tr url, remote tr url = pages url) ->
  run_year cat ty errs yearURL w = (Ok errs1, w1) ->
  EGet u (Some 5) ∈ new_events w1 (run_year cat ty errs2 yearURL w1).2 ->
  u ∈ errs1.
Proof.
  intros Hstatic Hfirst Hin.
  set (dir := type_dir cat ty) in *.
  set (year := PyStr.last_seg (PyStr.split "/" yearURL)) in *.
  (* the first pass *)
  unfold main_year in Hfirst. unfold bind at 1 in Hfirst.
  pose proof (fetchAvailablePages_static pages yearURL w w1 Hstatic) as Hsame.
  destruct (run_pages yearURL w) as [[pageURLs|e] wa] eqn:Hpages; [|discriminate].
  unfold bind at 1 in Hfirst. cbn [Os.makedirs] in Hfirst. fold dir year in Hfirst.
  match type of Hfirst with for_each _ _ _ ?wb = _ =>
    destruct (page_loop_outcome dir year pageURLs errs wb)
      as (added & w1' & Hloop & _ & Hall)
  end.
  rewrite Hloop in Hfirst. injection Hfirst as <- <-.
  (* the second pass reads the same listing *)
  unfold main_year in Hin. unfold bind at 1 in Hin.
  pose proof (fetchAvailablePages_bare yearURL w1') as (Hf & Hd & gets & Htg & Hbare).
  destruct (run_pages yearURL w1') as [[pageURLs2|e] wc]; cbn [fst snd] in *.
  2:{ rewrite (new_events_app _ _ _ Htg) in Hin. rewrite Forall_forall in Hbare.
      now destruct (Hbare _ Hin) as [v [=]]. }
  injection Hsame as ->.
  unfold bind at 1 in Hin. cbn [Os.makedirs] in Hin. fold dir year in Hin.
  match type of Hin with context [for_each _ _ _ ?wd] => set (w2 := wd) in * end.
  destruct (page_loop_failures dir year pageURLs2 errs2 w2) as (rest & w3 & Hloop2 & Ht3).
  assert (EGet u (Some 5)
            ∈ new_events w2 (for_each pageURLs2 (main_page remote dir year) errs2 w2).2)
    as Hin2.
  { rewrite Hloop2 in Hin |- *. cbn [snd] in *.
    rewrite (new_events_app _ _ _ Ht3).
    rewrite (new_events_app w1' w3 (gets ++ [EMakedirs dir] ++ rest)) in Hin.
    - apply elem_of_app in Hin as [Hin|Hin].
      + rewrite Forall_forall in Hbare. now destruct (Hbare _ Hin) as [v [=]].
      + apply elem_of_app in Hin as [Hin|Hin]; [|exact Hin].
        apply list_elem_of_singleton in Hin. discriminate.
    - rewrite Ht3. subst w2. cbn [trace]. now rewrite Htg, <- !app_assoc. }
  apply page_loop_requests in Hin2 as [Hu Hmissing].
  apply elem_of_app. right.
  destruct (Hall u Hu) as [Hstored|Hadded]; [|exact Hadded].
  assert (Os.path_exists_in w2 (doc_file_path dir year u) = true) as Hex2;
    [|congruence].
  unfold Os.path_exists_in in *. subst w2. cbn [files dirs]. rewrite Hf.
  rewrite !orb_true_iff, !bool_decide_eq_true in *.
  destruct Hstored as [?|Hdir]; [now left|right].
  apply elem_of_union_l. now rewrite Hd.
Qed.

(** X22 -- [extract_pagination_links] returns every resolved link of the
    pagination region exactly once (and nothing without a region): the
    [not in links] test already removes the repetitions, so the final
    conversion to a set and back only reorders the list. *)
Theorem extract_pagination_links_distinct (soup : Soup.node) :
  NoDup (extract_pagination_links urljoin set_iter soup) /\
  (forall u, u ∈ extract_pagination_links urljoin set_iter soup
             <-> u ∈ nav_links urljoin soup) /\
  extract_pagination_links urljoin set_iter soup
    ≡ₚ append_new [] (nav_links urljoin soup).
Proof using set_iter_perm.
  destruct (extract_pagination_links_spec soup) as [Hnd Hmem].
  split; [exact Hnd|]. split; [exact Hmem|].
  unfold extract_pagination_links, nav_links.
  destruct (Soup.find soup "div" _) as [nav|]; [|reflexivity].
  rewrite set_iter_perm. apply elements_list_to_set.
  apply (append_new_spec _ [] (NoDup_nil_2)).
Qed.

End ScraperFacts.

(** ** The crawler on the small site *)

(** Scenario B of the specification: one year, two documents, the second
    answered with the "unavailable" page. *)
Example first_run_of_ukpga :
  let w' := (Demo.main_type_demo "Primary Legislation" "ukpga" Demo.empty_world).2 in
  map_to_list (files w')
  = [(Demo.ukpga_errors, Demo.act2_url); (Demo.act1_path, Demo.act1_html)].
Proof. vm_compute. reflexivity. Qed.

(** A 404 answer is reported as "unavailable", like the soft-failure
    pages. *)
Example not_found_is_soft_failure :
  (Demo.fetchHTML_demo "http://www.legislation.gov.uk/gone" Demo.empty_world).1
  = Raise (ValueError "http://www.legislation.gov.uk/gone" SoftFailure).
Proof. vm_compute. reflexivity. Qed.

(** A timeline without links gives no years and no error. *)
Example empty_timeline_gives_no_years :
  Demo.fetchAvailableYears_demo "asp" Demo.empty_world
  = (Ok [], fetched (root_url "asp") Demo.empty_world).
Proof. vm_compute. reflexivity. Qed.

(** C4, the code at a page without timeline -- the root page of [ukla] is
    fetched successfully and has no timeline region; [fetchAvailableYears]
    does not return the empty list but ends in [AttributeError]. *)
Theorem missing_timeline_raises :
  Demo.fetchHTML_demo (root_url "ukla") Demo.empty_world
    = (Ok Demo.bare_html, fetched (root_url "ukla") Demo.empty_world) /\
  Soup.find (Demo.html_parser Demo.bare_html) "div" (Soup.IdIs "timelineData") = None /\
  Demo.fetchAvailableYears_demo "ukla" Demo.empty_world
    = (Raise AttributeError, fetched (root_url "ukla") Demo.empty_world).
Proof. repeat split; vm_compute; reflexivity. Qed.

(** C6, the code on a year listing -- the two listing requests of
    [fetchAvailablePages] follow each other with no sleep at all, so the
    log of a type's run breaks the rule "a sleep of at least 1 before
    every request". *)
Theorem listing_requests_do_not_wait :
  new_events Demo.empty_world
             (Demo.fetchAvailablePages_demo Demo.year_url Demo.empty_world).2
    = [EGet Demo.year_url None; EGet Demo.page2_url None] /\
  every_request_waits 1
    (trace (Demo.main_type_demo "Primary Legislation" "ukpga" Demo.empty_world).2)
    = false.
Proof. split; vm_compute; reflexivity. Qed.

(** The requests of [fetchHTML] itself do wait. *)
Lemma fetchHTML_waits remote url w :
  every_request_waits 1 (new_events w (fetchHTML remote url w).2) = true.
Proof.
  rewrite fetchHTML_unfold. cbn [snd].
  now rewrite (new_events_app w (fetched url w) [ESleep 1; EGet url (Some 5)]).
Qed.

(** C5, as stated, fails -- the pagination region of the 2021 listing
    links to the listing itself, and the page is requested twice. *)
Lemma selflink_page_requested_twice :
  Demo.selflink_url
    ∈ nav_links Demo.url_join
        (Demo.html_parser (text {| status_code := 200; text := Demo.selflink_html |})) /\
  requested (new_events Demo.empty_world
               (Demo.fetchAvailablePages_demo Demo.selflink_url Demo.empty_world).2)
    = [Demo.selflink_url; Demo.selflink_url] /\
  ~ NoDup (requested (new_events Demo.empty_world
                        (Demo.fetchAvailablePages_demo Demo.selflink_url Demo.empty_world).2)).
Proof.
  split; [vm_compute; constructor|]. split; [vm_compute; reflexivity|].
  intros Hnd. vm_compute in Hnd. apply NoDup_cons in Hnd as [Hnotin _].
  apply Hnotin. constructor.
Qed.

Lemma demo_set_iter_perm (s : gset string) : Demo.set_order s ≡ₚ elements s.
Proof. reflexivity. Qed.

(** ** The theorems at work on the small site *)


(** C2 on the page of act 2: status 200, body with the "unavailable"
    text. *)
Lemma fetchHTML_soft_failure_witness :
  Demo.site (trace Demo.empty_world ++ [ESleep 1; EGet Demo.act2_url (Some 5)])
              Demo.act2_url
    = Response {| status_code := 200; text := Demo.act2_html |} /\
  fetchHTML Demo.site Demo.act2_url Demo.empty_world
    = (Raise (ValueError Demo.act2_url SoftFailure),
       fetched Demo.act2_url Demo.empty_world).
Proof.
  split; [reflexivity|].
  apply (fetchHTML_soft_failure Demo.site Demo.act2_url Demo.empty_world
           {| status_code := 200; text := Demo.act2_html |}).
  - reflexivity.
  - left. split; [reflexivity|]. left. vm_compute. reflexivity.
Defined.


(** C5 as the code has it, on the 2020 listing: the start page, then
    page 2 once although it is linked twice. *)
Lemma fetchAvailablePages_requests_witness :
  (forall s, Demo.set_order s ≡ₚ elements s) /\
  Demo.site (trace Demo.empty_world ++ [EGet Demo.year_url None]) Demo.year_url
    = Response {| status_code := 200; text := Demo.year_html |} /\
  Demo.fetchAvailablePages_demo Demo.year_url Demo.empty_world
    = (Ok [Demo.act1_url; Demo.act2_url],
       (Demo.fetchAvailablePages_demo Demo.year_url Demo.empty_world).2) /\
  exists page_urls,
    new_events Demo.empty_world
               (Demo.fetchAvailablePages_demo Demo.year_url Demo.empty_world).2
      = EGet Demo.year_url None :: List.map (fun u => EGet u None) page_urls /\
    NoDup page_urls /\
    forall u, u ∈ page_urls
              <-> u ∈ nav_links Demo.url_join
                        (Demo.html_parser (text {| status_code := 200;
                                             text := Demo.year_html |})).
Proof.
  split; [exact demo_set_iter_perm|].
  split; [reflexivity|]. split; [vm_compute; reflexivity|].
  apply (fetchAvailablePages_requests Demo.site Demo.html_parser Demo.url_join
           Demo.set_order demo_set_iter_perm Demo.year_url Demo.empty_world _
           {| status_code := 200; text := Demo.year_html |}
           [Demo.act1_url; Demo.act2_url]).
  - reflexivity.
  - vm_compute; reflexivity.
Defined.

(** C7 on type [uksi], whose root page cannot be reached. *)
Lemma main_type_root_network_error_witness :
  Demo.site (trace Demo.empty_world
                 ++ [ESleep 1; EGet (root_url "uksi") (Some 5)]) (root_url "uksi")
    = TransportError /\
  exists w',
    Demo.main_type_demo "Secondary Legislation" "uksi" Demo.empty_world
      = (Raise (ValueError (root_url "uksi") NetworkError), w') /\
    files w' = files Demo.empty_world /\ dirs w' = dirs Demo.empty_world /\
    new_events Demo.empty_world w' = [ESleep 1; EGet (root_url "uksi") (Some 5)].
Proof.
  split; [reflexivity|].
  apply (main_type_root_network_error Demo.site Demo.html_parser Demo.url_join
           Demo.set_order "Secondary Legislation" "uksi" Demo.empty_world).
  reflexivity.
Defined.

(** The hyphen filter on the timeline of [ukpga]: the range 1801-1899 is
    left out. *)
Lemma fetchAvailableYears_hyphen_filter_witness :
  Demo.fetchHTML_demo (root_url "ukpga") Demo.empty_world
    = (Ok Demo.root_html, fetched (root_url "ukpga") Demo.empty_world) /\
  Soup.find (Demo.html_parser Demo.root_html) "div" (Soup.IdIs "timelineData")
    = Some (Soup.Tag "div" [("id", "timelineData")]
              [Demo.a_ "/ukpga/2020" "2020"; Demo.a_ "/ukpga/1801-1899" "1801-1899"]) /\
  "/ukpga/1801-1899"
    ∈ Soup.hrefs_of
        (Soup.find_all
           (Soup.Tag "div" [("id", "timelineData")]
              [Demo.a_ "/ukpga/2020" "2020"; Demo.a_ "/ukpga/1801-1899" "1801-1899"])
           "a" Soup.HrefPresent) /\
  exists yearURLs,
    Demo.fetchAvailableYears_demo "ukpga" Demo.empty_world
      = (Ok yearURLs, fetched (root_url "ukpga") Demo.empty_world) /\
    (PyStr.contains "-" "/ukpga/1801-1899" = true ->
     BASE_URL +:+ "/ukpga/1801-1899" ∉ yearURLs) /\
    (PyStr.contains "-" "/ukpga/1801-1899" = false ->
     BASE_URL +:+ "/ukpga/1801-1899" ∈ yearURLs).
Proof.
  split; [vm_compute; reflexivity|]. split; [reflexivity|].
  split; [vm_compute; repeat constructor|].
  apply (fetchAvailableYears_hyphen_filter Demo.site Demo.html_parser "ukpga"
           Demo.empty_world (fetched (root_url "ukpga") Demo.empty_world)
           Demo.root_html
           (Soup.Tag "div" [("id", "timelineData")]
              [Demo.a_ "/ukpga/2020" "2020"; Demo.a_ "/ukpga/1801-1899" "1801-1899"])
           "/ukpga/1801-1899").
  - vm_compute; reflexivity.
  - reflexivity.
  - vm_compute; repeat constructor.
Defined.

(** C9 on a table of two categories: [ukpga] runs, [ukla] has no
    timeline and raises, [asp] and the second category are never
    reached. *)
Lemma main_aborts_on_year_failure_witness :
  Demo.main_over_demo ([] ++ [("Primary Legislation", ["ukpga"])]) Demo.empty_world
    = (Ok tt,
       (Demo.main_type_demo "Primary Legislation" "ukpga" Demo.empty_world).2) /\
  Demo.fetchAvailableYears_demo "ukla"
      (Demo.main_type_demo "Primary Legislation" "ukpga" Demo.empty_world).2
    = (Raise AttributeError,
       fetched (root_url "ukla")
         (Demo.main_type_demo "Primary Legislation" "ukpga" Demo.empty_world).2) /\
  Demo.main_over_demo
      ([] ++ ("Primary Legislation", ["ukpga"] ++ "ukla" :: ["asp"])
          :: [("Secondary Legislation", ["uksi"])])
      Demo.empty_world
    = (Raise AttributeError,
       fetched (root_url "ukla")
         (Demo.main_type_demo "Primary Legislation" "ukpga" Demo.empty_world).2).
Proof.
  split; [vm_compute; reflexivity|]. split; [vm_compute; reflexivity|].
  apply (main_aborts_on_year_failure Demo.site Demo.html_parser Demo.url_join
           Demo.set_order [] [("Secondary Legislation", ["uksi"])]
           "Primary Legislation" ["ukpga"] ["asp"] "ukla" Demo.empty_world
           (Demo.main_type_demo "Primary Legislation" "ukpga" Demo.empty_world).2).
  - vm_compute; reflexivity.
  - vm_compute; reflexivity.
Defined.

(** C10 on the resumed disk: both acts are stored, nothing fails, and the
    error file of the earlier run stays as it is. *)
Lemma main_type_empty_errors_keeps_error_file_witness :
  Demo.fetchAvailableYears_demo "ukpga" Demo.resumed_world
    = (Ok [Demo.year_url], fetched (root_url "ukpga") Demo.resumed_world) /\
  for_each [Demo.year_url] (Demo.main_year_demo "Primary Legislation" "ukpga") []
           (fetched (root_url "ukpga") Demo.resumed_world)
    = (Ok [], (Demo.main_type_demo "Primary Legislation" "ukpga" Demo.resumed_world).2) /\
  Demo.main_type_demo "Primary Legislation" "ukpga" Demo.resumed_world
    = (Ok tt, (Demo.main_type_demo "Primary Legislation" "ukpga" Demo.resumed_world).2) /\
  files (Demo.main_type_demo "Primary Legislation" "ukpga" Demo.resumed_world).2
    !! error_file "Primary Legislation" "ukpga"
    = files Demo.resumed_world !! error_file "Primary Legislation" "ukpga" /\
  forall c,
    EWrite (error_file "Primary Legislation" "ukpga") c
      ∉ new_events Demo.resumed_world
          (Demo.main_type_demo "Primary Legislation" "ukpga" Demo.resumed_world).2.
Proof.
  split; [vm_compute; reflexivity|]. split; [vm_compute; reflexivity|].
  apply (main_type_empty_errors_keeps_error_file Demo.site Demo.html_parser
           Demo.url_join Demo.set_order "Primary Legislation" "ukpga"
           Demo.resumed_world (fetched (root_url "ukpga") Demo.resumed_world)
           _ [Demo.year_url]).
  - vm_compute; reflexivity.
  - vm_compute; reflexivity.
Defined.

(** ** The further facts at work *)

(** A page with both the "not recognised" and the "could not be found"
    text counts as unavailable: the first check decides. *)
Example both_markers_is_soft_failure :
  (fetchHTML Demo2.site Demo2.both_url Demo.empty_world).1
  = Raise (ValueError Demo2.both_url SoftFailure).
Proof. vm_compute. reflexivity. Qed.

(** X1 on a page the service does not recognise. *)
Lemma fetchHTML_invalid_request_iff_witness :
  Demo2.site (trace Demo.empty_world ++ [ESleep 1; EGet Demo2.invalid_url (Some 5)])
             Demo2.invalid_url
    = Response {| status_code := 200; text := Demo2.invalid_html |} /\
  ((fetchHTML Demo2.site Demo2.invalid_url Demo.empty_world).1
     = Raise (ValueError Demo2.invalid_url InvalidRequest) <->
   status_code {| status_code := 200; text := Demo2.invalid_html |} = 200 /\
   PyStr.contains UNAVAILABLE_TEXT
     (text {| status_code := 200; text := Demo2.invalid_html |}) = false /\
   PyStr.contains COULDNT_FIND_TEXT
     (text {| status_code := 200; text := Demo2.invalid_html |}) = false /\
   PyStr.contains INVALID_TEXT
     (text {| status_code := 200; text := Demo2.invalid_html |}) = true).
Proof.
  split; [reflexivity|].
  apply (fetchHTML_invalid_request_iff Demo2.site Demo2.invalid_url Demo.empty_world
           {| status_code := 200; text := Demo2.invalid_html |}).
  reflexivity.
Defined.

(** X7 on the 2020 listing. *)
Lemma fetchAvailablePages_urls_sorted_distinct_witness :
  (forall s, Demo.set_order s ≡ₚ elements s) /\
  Demo.fetchAvailablePages_demo Demo.year_url Demo.empty_world
    = (Ok [Demo.act1_url; Demo.act2_url],
       (Demo.fetchAvailablePages_demo Demo.year_url Demo.empty_world).2) /\
  exists hrefs,
    [Demo.act1_url; Demo.act2_url]
      = List.map (fun href => BASE_URL +:+ href +:+ "/data.html") hrefs /\
    NoDup hrefs /\
    Sorted (fun s t => String.leb s t = true) hrefs /\
    NoDup [Demo.act1_url; Demo.act2_url].
Proof.
  split; [exact demo_set_iter_perm|]. split; [vm_compute; reflexivity|].
  apply (fetchAvailablePages_urls_sorted_distinct Demo.site Demo.html_parser
           Demo.url_join Demo.set_order demo_set_iter_perm Demo.year_url
           Demo.empty_world
           (Demo.fetchAvailablePages_demo Demo.year_url Demo.empty_world).2).
  vm_compute; reflexivity.
Defined.

(** X8 on the 2020 listing: [Demo.site] answers a URL the same way at any
    time. *)
Lemma fetchAvailablePages_urls_members_witness :
  (forall s, Demo.set_order s ≡ₚ elements s) /\
  (forall tr url, Demo.site tr url = Demo.site [] url) /\
  Demo.site [] Demo.year_url
    = Response {| status_code := 200; text := Demo.year_html |} /\
  Demo.fetchAvailablePages_demo Demo.year_url Demo.empty_world
    = (Ok [Demo.act1_url; Demo.act2_url],
       (Demo.fetchAvailablePages_demo Demo.year_url Demo.empty_world).2) /\
  forall href,
    BASE_URL +:+ href +:+ "/data.html" ∈ [Demo.act1_url; Demo.act2_url] <->
    href ∈ extract_table_hrefs
             (Demo.html_parser (text {| status_code := 200; text := Demo.year_html |})) \/
    exists u r',
      u ∈ nav_links Demo.url_join
            (Demo.html_parser (text {| status_code := 200; text := Demo.year_html |})) /\
      Demo.site [] u = Response r' /\
      href ∈ extract_table_hrefs (Demo.html_parser (text r')).
Proof.
  split; [exact demo_set_iter_perm|]. split; [reflexivity|].
  split; [reflexivity|]. split; [vm_compute; reflexivity|].
  apply (fetchAvailablePages_urls_members Demo.site Demo.html_parser
           Demo.url_join Demo.set_order demo_set_iter_perm (Demo.site [])
           Demo.year_url Demo.empty_world
           (Demo.fetchAvailablePages_demo Demo.year_url Demo.empty_world).2
           {| status_code := 200; text := Demo.year_html |}).
  - reflexivity.
  - reflexivity.
  - vm_compute; reflexivity.
Defined.

(** X9 on act 1 of 2020. *)
Lemma doc_file_path_standard_url_witness :
  PyStr.contains "/" "ukpga" = false /\
  PyStr.contains "/" "2020" = false /\
  PyStr.contains "/" "1" = false /\
  doc_file_path (type_dir "Primary Legislation" "ukpga") "2020"
    (BASE_URL +:+ ("/" +:+ "ukpga" +:+ "/" +:+ "2020" +:+ "/" +:+ "1") +:+ "/data.html")
  = Os.path_join (type_dir "Primary Legislation" "ukpga")
      ("2020" +:+ "-" +:+ "2020" +:+ "-" +:+ "1" +:+ "-data.html.html").
Proof.
  split; [reflexivity|]. split; [reflexivity|]. split; [reflexivity|].
  apply (doc_file_path_standard_url (type_dir "Primary Legislation" "ukpga")
           "2020" "ukpga" "2020" "1"); reflexivity.
Defined.

(** X10 on acts 1 and 2 of 2020. *)
Lemma doc_file_path_distinct_witness :
  name_segments Demo.act1_url <> [] /\
  name_segments Demo.act2_url <> [] /\
  Forall (fun seg => PyStr.contains "-" seg = false) (name_segments Demo.act1_url) /\
  Forall (fun seg => PyStr.contains "-" seg = false) (name_segments Demo.act2_url) /\
  name_segments Demo.act1_url <> name_segments Demo.act2_url /\
  doc_file_path (type_dir "Primary Legislation" "ukpga")
                (PyStr.last_seg (PyStr.split "/" Demo.year_url)) Demo.act1_url
  <> doc_file_path (type_dir "Primary Legislation" "ukpga")
                   (PyStr.last_seg (PyStr.split "/" Demo.year_url)) Demo.act2_url.
Proof.
  split; [vm_compute; discriminate|]. split; [vm_compute; discriminate|].
  split; [vm_compute; repeat constructor|].
  split; [vm_compute; repeat constructor|].
  split; [vm_compute; discriminate|].
  apply (doc_file_path_distinct (type_dir "Primary Legislation" "ukpga")
           Demo.year_url Demo.act1_url Demo.act2_url).
  - vm_compute; discriminate.
  - vm_compute; discriminate.
  - vm_compute; repeat constructor.
  - vm_compute; repeat constructor.
  - vm_compute; discriminate.
Defined.

(** X11: a [uksi] document with the naming segments of act 1 is dropped
    once act 1 is stored. *)
Lemma same_segments_second_skipped_witness :
  name_segments Demo.act1_url = name_segments Demo2.uksi_act1_url /\
  Os.path_exists_in Demo.empty_world
    (doc_file_path (type_dir "Primary Legislation" "ukpga") "2020" Demo.act1_url)
    = false /\
  (fetchHTML Demo.site Demo.act1_url Demo.empty_world).1 = Ok Demo.act1_html /\
  for_each [Demo.act1_url; Demo2.uksi_act1_url]
           (main_page Demo.site (type_dir "Primary Legislation" "ukpga") "2020")
           [] Demo.empty_world
  = (Ok [],
     {| files := <[doc_file_path (type_dir "Primary Legislation" "ukpga") "2020"
                     Demo.act1_url := Demo.act1_html]> (files Demo.empty_world);
        dirs := dirs Demo.empty_world;
        trace := trace Demo.empty_world
                 ++ [ESleep 1; EGet Demo.act1_url (Some 5);
                     EWrite (doc_file_path (type_dir "Primary Legislation" "ukpga")
                               "2020" Demo.act1_url) Demo.act1_html] |}).
Proof.
  split; [vm_compute; reflexivity|]. split; [vm_compute; reflexivity|].
  split; [vm_compute; reflexivity|].
  apply (same_segments_second_skipped Demo.site
           (type_dir "Primary Legislation" "ukpga") "2020"
           Demo.act1_url Demo2.uksi_act1_url Demo.act1_html [] Demo.empty_world);
    vm_compute; reflexivity.
Defined.

(** X12 on the year URL of 2020. *)
Lemma year_label_after_last_slash_witness :
  PyStr.contains "/" "2020" = false /\
  PyStr.last_seg
    (PyStr.split "/" ("http://www.legislation.gov.uk/ukpga" +:+ "/" +:+ "2020"))
  = "2020".
Proof.
  split; [reflexivity|].
  apply (year_label_after_last_slash "http://www.legislation.gov.uk/ukpga" "2020").
  reflexivity.
Defined.

(** X14 on type [nia]: the act of 2019 fails, then the listing of 2018
    cannot be reached; no error file is written. *)
Lemma main_type_aborted_keeps_error_file_witness :
  Demo2.main_type_demo2 "Primary Legislation" "nia" Demo.empty_world
    = (Raise (RequestException Demo2.nia_2018_url),
       (Demo2.main_type_demo2 "Primary Legislation" "nia" Demo.empty_world).2) /\
  files (Demo2.main_type_demo2 "Primary Legislation" "nia" Demo.empty_world).2
    !! error_file "Primary Legislation" "nia"
    = files Demo.empty_world !! error_file "Primary Legislation" "nia" /\
  forall c,
    EWrite (error_file "Primary Legislation" "nia") c
      ∉ new_events Demo.empty_world
          (Demo2.main_type_demo2 "Primary Legislation" "nia" Demo.empty_world).2.
Proof.
  split; [vm_compute; reflexivity|].
  apply (main_type_aborted_keeps_error_file Demo2.site Demo2.html_parser
           Demo.url_join Demo.set_order "Primary Legislation" "nia"
           Demo.empty_world _ (RequestException Demo2.nia_2018_url)).
  vm_compute; reflexivity.
Defined.

(** X15 on the listing of 2018 of [nia]. *)
Lemma main_year_listing_unreachable_witness :
  Demo2.site (trace Demo.empty_world ++ [EGet Demo2.nia_2018_url None])
             Demo2.nia_2018_url = TransportError /\
  exists w',
    Demo2.main_year_demo2 "Primary Legislation" "nia" [] Demo2.nia_2018_url
                          Demo.empty_world
      = (Raise (RequestException Demo2.nia_2018_url), w') /\
    files w' = files Demo.empty_world /\ dirs w' = dirs Demo.empty_world /\
    new_events Demo.empty_world w' = [EGet Demo2.nia_2018_url None].
Proof.
  split; [reflexivity|].
  apply (main_year_listing_unreachable Demo2.site Demo2.html_parser
           Demo.url_join Demo.set_order "Primary Legislation" "nia"
           Demo2.nia_2018_url [] Demo.empty_world).
  reflexivity.
Defined.


(** X17 on the first run of 2020: act 1 is stored, and its body is clean. *)
Lemma main_year_stores_clean_bodies_witness :
  EWrite Demo.act1_path Demo.act1_html
    ∈ new_events Demo.empty_world
        (Demo.main_year_demo "Primary Legislation" "ukpga" [] Demo.year_url
           Demo.empty_world).2 /\
  clean_body Demo.act1_html.
Proof.
  split; [vm_compute; repeat constructor|].
  apply (main_year_stores_clean_bodies Demo.site Demo.html_parser Demo.url_join
           Demo.set_order "Primary Legislation" "ukpga" Demo.year_url []
           Demo.empty_world Demo.act1_path Demo.act1_html).
  vm_compute; repeat constructor.
Defined.

(** X18 on the first run of 2020. *)
Lemma main_year_creates_type_dir_witness :
  Demo.main_year_demo "Primary Legislation" "ukpga" [] Demo.year_url Demo.empty_world
    = (Ok [Demo.act2_url],
       (Demo.main_year_demo "Primary Legislation" "ukpga" [] Demo.year_url
          Demo.empty_world).2) /\
  type_dir "Primary Legislation" "ukpga"
    ∈ dirs (Demo.main_year_demo "Primary Legislation" "ukpga" [] Demo.year_url
              Demo.empty_world).2 /\
  exists gets rest,
    new_events Demo.empty_world
      (Demo.main_year_demo "Primary Legislation" "ukpga" [] Demo.year_url
         Demo.empty_world).2
      = gets ++ EMakedirs (type_dir "Primary Legislation" "ukpga") :: rest /\
    Forall (fun e => exists url, e = EGet url None) gets.
Proof.
  split; [vm_compute; reflexivity|].
  apply (main_year_creates_type_dir Demo.site Demo.html_parser Demo.url_join
           Demo.set_order "Primary Legislation" "ukpga" Demo.year_url []
           [Demo.act2_url] Demo.empty_world).
  vm_compute; reflexivity.
Defined.

(** X19 on type [asp], whose timeline is empty. *)
Lemma main_type_without_years_witness :
  Demo.fetchAvailableYears_demo "asp" Demo.empty_world
    = (Ok [], fetched (root_url "asp") Demo.empty_world) /\
  Demo.main_type_demo "Primary Legislation" "asp" Demo.empty_world
    = (Ok tt, fetched (root_url "asp") Demo.empty_world) /\
  files (fetched (root_url "asp") Demo.empty_world) = files Demo.empty_world /\
  dirs (fetched (root_url "asp") Demo.empty_world) = dirs Demo.empty_world /\
  new_events Demo.empty_world (fetched (root_url "asp") Demo.empty_world)
    = [ESleep 1; EGet (root_url "asp") (Some 5)].
Proof.
  split; [vm_compute; reflexivity|].
  apply (main_type_without_years Demo.site Demo.html_parser Demo.url_join
           Demo.set_order "Primary Legislation" "asp" Demo.empty_world
           (fetched (root_url "asp") Demo.empty_world)).
  vm_compute; reflexivity.
Defined.

(** X20: [ukpga] runs, the 2018 listing of [nia] cannot be reached, and
    [asp] and the second category are never started. *)
Lemma main_aborts_on_type_failure_witness :
  Demo2.main_over_demo2 ([] ++ [("Primary Legislation", ["ukpga"])]) Demo.empty_world
    = (Ok tt,
       (Demo2.main_type_demo2 "Primary Legislation" "ukpga" Demo.empty_world).2) /\
  Demo2.main_type_demo2 "Primary Legislation" "nia"
      (Demo2.main_type_demo2 "Primary Legislation" "ukpga" Demo.empty_world).2
    = (Raise (RequestException Demo2.nia_2018_url),
       (Demo2.main_type_demo2 "Primary Legislation" "nia"
          (Demo2.main_type_demo2 "Primary Legislation" "ukpga" Demo.empty_world).2).2) /\
  Demo2.main_over_demo2
      ([] ++ ("Primary Legislation", ["ukpga"] ++ "nia" :: ["asp"])
          :: [("Secondary Legislation", ["uksi"])])
      Demo.empty_world
    = (Raise (RequestException Demo2.nia_2018_url),
       (Demo2.main_type_demo2 "Primary Legislation" "nia"
          (Demo2.main_type_demo2 "Primary Legislation" "ukpga" Demo.empty_world).2).2).
Proof.
  split; [vm_compute; reflexivity|]. split; [vm_compute; reflexivity|].
  apply (main_aborts_on_type_failure Demo2.site Demo2.html_parser Demo.url_join
           Demo.set_order [] [("Secondary Legislation", ["uksi"])]
           "Primary Legislation" ["ukpga"] ["asp"] "nia" Demo.empty_world
           (Demo2.main_type_demo2 "Primary Legislation" "ukpga" Demo.empty_world).2).
  - vm_compute; reflexivity.
  - vm_compute; reflexivity.
Defined.

(** X21 on 2020: the first pass stores act 1 and reports act 2; the
    second pass requests act 2 again, and only act 2. *)
Lemma main_year_second_pass_retries_only_failures_witness :
  (forall tr url, Demo.site tr url = Demo.site [] url) /\
  Demo.main_year_demo "Primary Legislation" "ukpga" [] Demo.year_url Demo.empty_world
    = (Ok [Demo.act2_url],
       (Demo.main_year_demo "Primary Legislation" "ukpga" [] Demo.year_url
          Demo.empty_world).2) /\
  EGet Demo.act2_url (Some 5)
    ∈ new_events
        (Demo.main_year_demo "Primary Legislation" "ukpga" [] Demo.year_url
           Demo.empty_world).2
        (Demo.main_year_demo "Primary Legislation" "ukpga" [] Demo.year_url
           (Demo.main_year_demo "Primary Legislation" "ukpga" [] Demo.year_url
              Demo.empty_world).2).2 /\
  Demo.act2_url ∈ [Demo.act2_url].
Proof.
  split; [reflexivity|]. split; [vm_compute; reflexivity|].
  split; [vm_compute; repeat constructor|].
  apply (main_year_second_pass_retries_only_failures Demo.site Demo.html_parser
           Demo.url_join Demo.set_order (Demo.site [])
           "Primary Legislation" "ukpga" Demo.year_url [] [Demo.act2_url] []
           Demo.empty_world
           (Demo.main_year_demo "Primary Legislation" "ukpga" [] Demo.year_url
              Demo.empty_world).2 Demo.act2_url).
  - reflexivity.
  - vm_compute; reflexivity.
  - vm_compute; repeat constructor.
Defined.

(** The second pass over 2020, in full: the two listing requests, the
    directory, and act 2 once more. *)
Example second_pass_of_2020 :
  new_events
    (Demo.main_year_demo "Primary Legislation" "ukpga" [] Demo.year_url
       Demo.empty_world).2
    (Demo.main_year_demo "Primary Legislation" "ukpga" [] Demo.year_url
       (Demo.main_year_demo "Primary Legislation" "ukpga" [] Demo.year_url
          Demo.empty_world).2).2
  = [EGet Demo.year_url None; EGet Demo.page2_url None;
     EMakedirs (type_dir "Primary Legislation" "ukpga");
     ESleep 1; EGet Demo.act2_url (Some 5)].
Proof. vm_compute. reflexivity. Qed.

(** X22 on the first listing page of 2020, which links to page 2 twice. *)
Lemma extract_pagination_links_distinct_witness :
  (forall s, Demo.set_order s ≡ₚ elements s) /\
  NoDup (extract_pagination_links Demo.url_join Demo.set_order Demo.year_dom) /\
  (forall u, u ∈ extract_pagination_links Demo.url_join Demo.set_order Demo.year_dom
             <-> u ∈ nav_links Demo.url_join Demo.year_dom) /\
  extract_pagination_links Demo.url_join Demo.set_order Demo.year_dom
    ≡ₚ append_new [] (nav_links Demo.url_join Demo.year_dom).
Proof.
  split; [exact demo_set_iter_perm|].
  apply (extract_pagination_links_distinct Demo.url_join Demo.set_order
           demo_set_iter_perm Demo.year_dom).
Defined.

Example pagination_links_of_2020 :
  nav_links Demo.url_join Demo.year_dom = [Demo.page2_url; Demo.page2_url] /\
  extract_pagination_links Demo.url_join Demo.set_order Demo.year_dom
  = [Demo.page2_url].
Proof. split; vm_compute; reflexivity. Qed.

(** ** Year links that are not absolute paths *)

(** On absolute paths, appending to the origin is resolving. *)
Lemma absolute_path_is_resolved_by_appending (href : string) :
  String.prefix "/" href = true -> String.prefix "//" href = false ->
  resolve_against_origin BASE_URL href = BASE_URL +:+ href.
Proof.
  intros Hslash Hnet. unfold resolve_against_origin. rewrite Hnet, Hslash.
  destruct href as [|c href]; [discriminate|].
  cbn [String.prefix] in Hslash.
  destruct (ascii_dec "/" c) as [<-|]; [reflexivity|discriminate].
Qed.

(** C8, the code on a timeline with an absolute URL and a relative path --
    the root page of [ukcm] is fetched and its timeline region holds three
    links without hyphen.  [fetchAvailableYears] returns each href with
    the origin put in front of it: right for the absolute path, but for
    the absolute URL and for the relative path the URL the href resolves
    to against the origin is not among the year URLs. *)
Theorem year_hrefs_are_appended_not_resolved :
  Soup.find (Demo3.html_parser Demo3.ukcm_root_html) "div" (Soup.IdIs "timelineData")
    = Some Demo3.ukcm_timeline /\
  Soup.hrefs_of (Soup.find_all Demo3.ukcm_timeline "a" Soup.HrefPresent)
    = ["/ukcm/2020"; "http://www.legislation.gov.uk/ukcm/2021"; "ukcm/2022"] /\
  Forall (fun href => PyStr.contains "-" href = false)
         ["/ukcm/2020"; "http://www.legislation.gov.uk/ukcm/2021"; "ukcm/2022"] /\
  Demo3.fetchAvailableYears_demo3 "ukcm" Demo.empty_world
    = (Ok ["http://www.legislation.gov.uk/ukcm/2020";
           "http://www.legislation.gov.ukhttp://www.legislation.gov.uk/ukcm/2021";
           "http://www.legislation.gov.ukukcm/2022"],
       fetched (root_url "ukcm") Demo.empty_world) /\
  resolve_against_origin BASE_URL "http://www.legislation.gov.uk/ukcm/2021"
    = "http://www.legislation.gov.uk/ukcm/2021" /\
  resolve_against_origin BASE_URL "ukcm/2022"
    = "http://www.legislation.gov.uk/ukcm/2022" /\
  ("http://www.legislation.gov.uk/ukcm/2021"
     ∉ ["http://www.legislation.gov.uk/ukcm/2020";
        "http://www.legislation.gov.ukhttp://www.legislation.gov.uk/ukcm/2021";
        "http://www.legislation.gov.ukukcm/2022"]) /\
  ("http://www.legislation.gov.uk/ukcm/2022"
     ∉ ["http://www.legislation.gov.uk/ukcm/2020";
        "http://www.legislation.gov.ukhttp://www.legislation.gov.uk/ukcm/2021";
        "http://www.legislation.gov.ukukcm/2022"]).
Proof.
  split; [reflexivity|]. split; [reflexivity|].
  split; [repeat constructor|]. split; [vm_compute; reflexivity|].
  split; [reflexivity|]. split; [reflexivity|].
  split; intros Hin;
    repeat (apply elem_of_cons in Hin as [Hin|Hin]; [discriminate|]);
    now apply elem_of_nil in Hin.
Qed.
